(** * FMOD Studio HTML5 examples: the page scripts over an abstract engine

    The repository holds three page scripts that drive the FMOD Studio
    engine: [simple_event.js], [music_callbacks.js] and a third script, a
    trimmed copy of the simple-event example that adds the iOS/Chrome
    audio-resume workaround.  The engine itself is not part of the
    repository, so it appears here as an interface ([Host]): a state, a
    response function for every API call, the constants of the [FMOD]
    object and [FMOD.ErrorString].  Each script is embedded function by
    function in a monad that threads the engine state and the script's
    global variables, records what the script does to the outside world
    (engine calls, [alert], [console.log], DOM writes, timers, listeners)
    and propagates JavaScript exceptions.

    Conventions of the embedding:
    - result codes, sound ids and callback types are integers, so the
      scripts' [==] and [!=] on them are integer comparisons;
    - the engine stores a value of the documented kind in every
      out-parameter object it is handed, before it returns, and reaches the
      script's variables in no other way;
    - [FMOD.ErrorString] is a lookup: it has no effect on the engine;
    - a global that is [undefined], or an empty object where an engine
      object is expected, is [None]; a member access on it raises a
      TypeError, as does a write to a page element that does not exist. *)

From Stdlib Require Import ZArith List String Ascii Bool Lia DecimalString.
Import ListNotations.
Local Open Scope Z_scope.
Local Open Scope string_scope.

(** ** JavaScript numbers

    Engine statistics are IEEE doubles on the JavaScript side.  Their
    arithmetic and [Number.prototype.toFixed] belong to the language
    runtime; the scripts only combine and print them. *)

Class JSNumber : Type := {
  Number : Type;
  num_of_Z : Z -> Number;
  num_add : Number -> Number -> Number;
  num_mul : Number -> Number -> Number;
  num_div : Number -> Number -> Number;
  num_toFixed : Number -> Z -> string;
  num_toString : Number -> string
}.

(** Decimal rendering of an integer, as string concatenation does it. *)
Definition string_of_Z (z : Z) : string := NilZero.string_of_int (Z.to_int z).

(** The line feed written as a backslash-n escape in the scripts' log messages. *)
Definition LF : string := String (ascii_of_nat 10) EmptyString.

(** ** Engine objects and the API surface the scripts use *)

(** An object handed out by the engine (system, core system, bank, event
    description, event instance, sound, callback property block). *)
Inductive Obj : Type := Handle (id : Z).

Record PARAMETER_ID : Type := { data1 : Z; data2 : Z }.

Record PARAMETER_DESCRIPTION : Type := { pd_id : PARAMETER_ID }.

(** The functions a script hands to the engine or to the browser. *)
Inductive Callback : Type :=
| fn_markerCallback
| fn_updateApplication
| fn_resumeAudio.

Section Api.
Context {JSN : JSNumber}.

Record CPU_USAGE : Type := { cpu_dsp : Number; cpu_stream : Number; cpu_update : Number }.

(** One constructor per engine entry point, carrying the receiver and the
    arguments the scripts pass.  Out-parameters are not arguments here:
    what the engine stores in them is the call's [out_type]. *)
Inductive Call : Type :=
| Studio_System_Create
| getCoreSystem (system : Obj)
| setDSPBufferSize (core : Obj) (bufferlength numbuffers : Z)
| getDriverInfo (core : Obj) (driver : Z)
| setSoftwareFormat (core : Obj) (samplerate : Number) (speakermode numrawspeakers : Z)
| initialize (system : Obj) (maxchannels studioflags flags : Z)
| loadBankFile (system : Obj) (filename : string) (flags : Z)
| getEvent (system : Obj) (path : string)
| createInstance (description : Obj)
| loadSampleData (description : Obj)
| start (instance : Obj)
| stop (instance : Obj) (mode : Z)
| release (instance : Obj)
| setCallback (instance : Obj) (callback : Callback) (callbackmask : Z)
| getParameterDescriptionByName (description : Obj) (name : string)
| setParameterByID (instance : Obj) (pid : option PARAMETER_ID) (value : Z) (ignoreseekspeed : bool)
| getCPUUsage (core : Obj)
| getChannelsPlaying (core : Obj)
| getDSPBufferSize (core : Obj)
| getSoftwareFormat (core : Obj)
| update (system : Obj)
| mixerSuspend (core : Obj)
| mixerResume (core : Obj)
| getName (sound : Obj)
| getLength (sound : Obj) (lengthtype : Z).

(** What the engine writes into the out-parameter objects of a call. *)
Definition out_type (c : Call) : Type :=
  match c with
  | Studio_System_Create => Obj
  | getCoreSystem _ => Obj
  | getDriverInfo _ _ => Number
  | loadBankFile _ _ _ => Obj
  | getEvent _ _ => Obj
  | createInstance _ => Obj
  | getParameterDescriptionByName _ _ => PARAMETER_DESCRIPTION
  | getCPUUsage _ => CPU_USAGE
  | getChannelsPlaying _ => Number
  | getDSPBufferSize _ => (Number * Number)%type
  | getSoftwareFormat _ => Number
  | getName _ => string
  | getLength _ _ => Number
  | _ => unit
  end.

(** Calls that only read engine state. *)
Definition is_query (c : Call) : bool :=
  match c with
  | getCoreSystem _ | getDriverInfo _ _ | getEvent _ _
  | getParameterDescriptionByName _ _ | getCPUUsage _ | getChannelsPlaying _
  | getDSPBufferSize _ | getSoftwareFormat _ | getName _ | getLength _ _ => true
  | _ => false
  end.

(** The receiver of a method call ([None] for the one static function). *)
Definition receiver (c : Call) : option Obj :=
  match c with
  | Studio_System_Create => None
  | getCoreSystem o | setDSPBufferSize o _ _ | getDriverInfo o _
  | setSoftwareFormat o _ _ _ | initialize o _ _ _ | loadBankFile o _ _
  | getEvent o _ | createInstance o | loadSampleData o | start o | stop o _
  | release o | setCallback o _ _ | getParameterDescriptionByName o _
  | setParameterByID o _ _ _ | getCPUUsage o | getChannelsPlaying o
  | getDSPBufferSize o | getSoftwareFormat o | update o | mixerSuspend o
  | mixerResume o | getName o | getLength o _ => Some o
  end.

(** What a call stored in its out-parameters, as one value. *)
Inductive OutVal : Type :=
| ONone
| OObj (o : Obj)
| ONum (n : Number)
| OPair (a b : Number)
| OCpu (usage : CPU_USAGE)
| OStr (s : string)
| ODesc (d : PARAMETER_DESCRIPTION).

Definition out_val (c : Call) : out_type c -> OutVal :=
  match c as c0 return out_type c0 -> OutVal with
  | Studio_System_Create => OObj
  | getCoreSystem _ => OObj
  | getDriverInfo _ _ => ONum
  | loadBankFile _ _ _ => OObj
  | getEvent _ _ => OObj
  | createInstance _ => OObj
  | getParameterDescriptionByName _ _ => ODesc
  | getCPUUsage _ => OCpu
  | getChannelsPlaying _ => ONum
  | getDSPBufferSize _ => fun p => OPair (fst p) (snd p)
  | getSoftwareFormat _ => ONum
  | getName _ => OStr
  | getLength _ _ => ONum
  | _ => fun _ => ONone
  end.

(** A value as [console.log] receives it. *)
Inductive JsVal : Type :=
| JUndefined
| JNum (n : Number)
| JStr (s : string).

(** ** The host: engine, [FMOD] constants and the browser facts read *)

Class Host : Type := {
  FMOD_OK : Z;
  FMOD_ErrorString : Z -> string;
  FMOD_SPEAKERMODE_DEFAULT : Z;
  FMOD_STUDIO_INIT_NORMAL : Z;
  FMOD_INIT_NORMAL : Z;
  FMOD_STUDIO_STOP_IMMEDIATE : Z;
  FMOD_STUDIO_LOAD_BANK_NORMAL : Z;
  FMOD_STUDIO_EVENT_CALLBACK_TIMELINE_MARKER : Z;
  FMOD_STUDIO_EVENT_CALLBACK_TIMELINE_BEAT : Z;
  FMOD_STUDIO_EVENT_CALLBACK_SOUND_PLAYED : Z;
  FMOD_STUDIO_EVENT_CALLBACK_SOUND_STOPPED : Z;
  FMOD_TIMEUNIT_MS : Z;
  (** the engine: its state and its answer (result code, out values, next
      state) to every call *)
  Engine : Type;
  respond : Engine -> forall c : Call, Z * out_type c * Engine;
  (** reading a property of an object the engine passed to a callback *)
  property : Obj -> string -> JsVal;
  (** whether the page has an element for a selector or an id *)
  has_element : string -> bool;
  (** [/iPad|iPhone|iPod/.test(navigator.userAgent) && !window.MSStream] *)
  iOS : bool
}.

(** ** Observable effects *)

Inductive Event : Type :=
| ECall (c : Call) (result : Z) (out : OutVal)
| EAlert (msg : string)
| ELog (fmt : string) (args : list JsVal)
| ESetValue (selector : string) (text : string)
| EEnable (element_id : string)
| ESetInterval (handler : Callback) (ms : Z)
| EAddListener (target : string) (type : string) (listener : Callback).

End Api.

(** ** Exceptions and outcomes *)

Inductive Exn : Type :=
| Thrown (msg : string)   (* [throw msg] *)
| TypeError.              (* a member access on [undefined] or [null] *)

Inductive Outcome (A : Type) : Type :=
| Returned (a : A)
| Raised (e : Exn).

Arguments Returned {A} a.
Arguments Raised {A} e.

(** ** The script monad

    A computation starts from the engine state and the script's globals
    and yields its outcome, the state it leaves behind and the events it
    emitted, oldest first.  An exception keeps the state reached when it
    was thrown: JavaScript does not roll anything back.  None of the three
    scripts contains a [try], so the monad has no handler. *)

Section Monad.
Context {JSN : JSNumber} {H : Host}.
Variable G : Type.

Record World : Type := { engine : Engine; globals : G }.

Definition M (A : Type) : Type := World -> Outcome A * World * list Event.

Definition ret {A} (a : A) : M A := fun w => (Returned a, w, []).

Definition bind {A B} (m : M A) (k : A -> M B) : M B :=
  fun w =>
    match m w with
    | (Returned a, w1, e1) =>
        match k a w1 with
        | (o, w2, e2) => (o, w2, (e1 ++ e2)%list)
        end
    | (Raised x, w1, e1) => (Raised x, w1, e1)
    end.

Definition throw {A} (x : Exn) : M A := fun w => (Raised x, w, []).

Definition emit (e : Event) : M unit := fun w => (Returned tt, w, [e]).

Definition gets {A} (f : G -> A) : M A := fun w => (Returned (f (globals w)), w, []).

Definition modify (f : G -> G) : M unit :=
  fun w => (Returned tt, {| engine := engine w; globals := f (globals w) |}, []).

(** An engine call: the engine answers and moves on; the call, its
    result code and what it stored are recorded. *)
Definition call (c : Call) : M (Z * out_type c) :=
  fun w =>
    match respond (engine w) c with
    | (result, out, s) =>
        (Returned (result, out), {| engine := s; globals := globals w |}, [ECall c result (out_val c out)])
    end.

(** Evaluating [x.f(...)]: the receiver must be an object. *)
Definition deref (x : option Obj) : M Obj :=
  match x with
  | Some o => ret o
  | None => throw TypeError
  end.

(** The object held by a global, as the receiver of a method call. *)
Definition global (f : G -> option Obj) : M Obj :=
  fun w => deref (f (globals w)) w.

Definition alert (msg : string) : M unit := emit (EAlert msg).

Definition console_log (fmt : string) (args : list JsVal) : M unit := emit (ELog fmt args).

(** [document.querySelector(selector).value = text]: the lookup yields
    [null] when the page has no such element, and the assignment then
    raises a TypeError. *)
Definition set_value (selector text : string) : M unit :=
  if has_element selector then emit (ESetValue selector text) else throw TypeError.

(** [document.getElementById(id).disabled = false], likewise. *)
Definition enable (element_id : string) : M unit :=
  if has_element element_id then emit (EEnable element_id) else throw TypeError.

Definition setInterval (handler : Callback) (ms : Z) : M unit := emit (ESetInterval handler ms).

Definition addEventListener (target type : string) (listener : Callback) : M unit :=
  emit (EAddListener target type listener).

(** The parts of a finished run. *)
Definition outcome {A} (run : Outcome A * World * list Event) : Outcome A := fst (fst run).
Definition final {A} (run : Outcome A * World * list Event) : World := snd (fst run).
Definition events {A} (run : Outcome A * World * list Event) : list Event := snd run.

(** The browser runs one handler after another on the single UI thread.
    An exception that escapes a handler ends that handler only; the page
    keeps the state the handler left and goes on to the next one. *)
Fixpoint dispatch {X} (handler : X -> M unit) (todo : list X) (w : World)
  : World * list Event :=
  match todo with
  | [] => (w, [])
  | x :: rest =>
      match handler x w with
      | (_, w1, e1) =>
          match dispatch handler rest w1 with
          | (w2, e2) => (w2, (e1 ++ e2)%list)
          end
      end
  end.

End Monad.

Arguments ret {JSN H G A} a.
Arguments bind {JSN H G A B} m k.
Arguments throw {JSN H G A} x.
Arguments emit {JSN H G} e.
Arguments gets {JSN H G A} f.
Arguments modify {JSN H G} f.
Arguments call {JSN H G} c.
Arguments deref {JSN H G} x.
Arguments global {JSN H G} f.
Arguments alert {JSN H G} msg.
Arguments console_log {JSN H G} fmt args.
Arguments set_value {JSN H G} selector text.
Arguments enable {JSN H G} element_id.
Arguments setInterval {JSN H G} handler ms.
Arguments addEventListener {JSN H G} target type listener.
Arguments outcome {JSN H G A} run.
Arguments final {JSN H G A} run.
Arguments events {JSN H G A} run.
Arguments dispatch {JSN H G X} handler todo w.
Arguments engine {JSN H G} w.
Arguments globals {JSN H G} w.
Arguments Build_World {JSN H G} engine globals.

Declare Scope script_scope.
Delimit Scope script_scope with script.
Notation "x <- m ;; k" := (bind m (fun x => k))
  (at level 61, m at next level, right associativity) : script_scope.
Notation "' pat <- m ;; k" := (bind m (fun x => match x with pat => k end))
  (at level 61, pat pattern, m at next level, right associativity) : script_scope.
Notation "m ;; k" := (bind m (fun _ => k))
  (at level 61, right associativity) : script_scope.

(** ** The preload phase

    The runtime calls [prerun] before the engine exists: it touches no
    global and makes no engine call.  It mounts files with
    [FMOD.FS_createPreloadedFile], writes a text field and logs. *)

Section Preload.
Context {JSN : JSNumber} {H : Host}.

Inductive PreloadEvent : Type :=
| PPage (e : Event)
| PCreatePreloadedFile (parent name url : string) (canRead canWrite : bool).

Definition Preload (A : Type) : Type := (Outcome A * list PreloadEvent)%type.

Definition pre_ret {A} (a : A) : Preload A := (Returned a, []).

Definition pre_bind {A B} (m : Preload A) (k : A -> Preload B) : Preload B :=
  match m with
  | (Returned a, e1) =>
      match k a with
      | (o, e2) => (o, (e1 ++ e2)%list)
      end
  | (Raised x, e1) => (Raised x, e1)
  end.

Definition FS_createPreloadedFile (parent name url : string) (canRead canWrite : bool)
  : Preload unit :=
  (Returned tt, [PCreatePreloadedFile parent name url canRead canWrite]).

(** [document.querySelector(selector).value = text] during preload. *)
Definition pre_set_value (selector text : string) : Preload unit :=
  if has_element selector
  then (Returned tt, [PPage (ESetValue selector text)])
  else (Raised TypeError, []).

Definition pre_log (fmt : string) : Preload unit :=
  (Returned tt, [PPage (ELog fmt [])]).

(** [for (var count = start; count < xs.length; count++) body], where the
    body reads [xs[count]]: [rest] is what of the array lies at [count]
    and beyond. *)
Fixpoint for_count {X} (body : Z -> X -> Preload unit) (count : Z) (rest : list X)
  : Preload unit :=
  match rest with
  | [] => pre_ret tt
  | x :: rest' => pre_bind (body count x) (fun _ => for_count body (count + 1) rest')
  end.

(** The files a preload run mounted: path in the engine's file system,
    source url, and the two access flags. *)
Fixpoint mounts (evs : list PreloadEvent) : list (string * string * bool * bool) :=
  match evs with
  | [] => []
  | PCreatePreloadedFile parent name url canRead canWrite :: rest =>
      (parent ++ name, url, canRead, canWrite) :: mounts rest
  | _ :: rest => mounts rest
  end.

End Preload.

Declare Scope preload_scope.
Delimit Scope preload_scope with preload.
Notation "m ;; k" := (pre_bind m (fun _ => k))
  (at level 61, right associativity) : preload_scope.

(** ** Reading an event list *)

Section Traces.
Context {JSN : JSNumber}.

(** The engine calls of an event list, in order. *)
Fixpoint calls (evs : list Event) : list Call :=
  match evs with
  | [] => []
  | ECall c _ _ :: rest => c :: calls rest
  | _ :: rest => calls rest
  end.

(** The engine calls of an event list with what each stored, in order. *)
Fixpoint answers (evs : list Event) : list (Call * OutVal) :=
  match evs with
  | [] => []
  | ECall c _ out :: rest => (c, out) :: answers rest
  | _ :: rest => answers rest
  end.

(** The text-field writes of an event list: selector and text, in order. *)
Fixpoint writes (evs : list Event) : list (string * string) :=
  match evs with
  | [] => []
  | ESetValue selector text :: rest => (selector, text) :: writes rest
  | _ :: rest => writes rest
  end.

Definition is_timer (e : Event) : bool :=
  match e with ESetInterval _ _ => true | _ => false end.

Definition is_mixerSuspend (c : Call) : bool :=
  match c with mixerSuspend _ => true | _ => false end.

Definition is_mixerResume (c : Call) : bool :=
  match c with mixerResume _ => true | _ => false end.

Definition is_setSoftwareFormat (c : Call) : bool :=
  match c with setSoftwareFormat _ _ _ _ => true | _ => false end.

End Traces.

Local Open Scope script_scope.

(** * simple_event.js *)

Module SimpleEvent.
Section Script.
Context {JSN : JSNumber} {H : Host}.

(** The script's globals.  [gSystem] and [gSystemCore] start undefined;
    the other three start as empty objects whose [val] the engine fills,
    and the field here is that [val]. *)
Record Globals : Type := {
  gSystem : option Obj;
  gSystemCore : option Obj;
  explosionDescription : option Obj;
  loopingAmbienceInstance : option Obj;
  cancelInstance : option Obj
}.

Definition initial : Globals :=
  {| gSystem := None; gSystemCore := None; explosionDescription := None;
     loopingAmbienceInstance := None; cancelInstance := None |}.

Definition set_gSystem (v : option Obj) (g : Globals) : Globals :=
  {| gSystem := v; gSystemCore := gSystemCore g;
     explosionDescription := explosionDescription g;
     loopingAmbienceInstance := loopingAmbienceInstance g;
     cancelInstance := cancelInstance g |}.

Definition set_gSystemCore (v : option Obj) (g : Globals) : Globals :=
  {| gSystem := gSystem g; gSystemCore := v;
     explosionDescription := explosionDescription g;
     loopingAmbienceInstance := loopingAmbienceInstance g;
     cancelInstance := cancelInstance g |}.

Definition set_explosionDescription (v : option Obj) (g : Globals) : Globals :=
  {| gSystem := gSystem g; gSystemCore := gSystemCore g;
     explosionDescription := v;
     loopingAmbienceInstance := loopingAmbienceInstance g;
     cancelInstance := cancelInstance g |}.

Definition set_loopingAmbienceInstance (v : option Obj) (g : Globals) : Globals :=
  {| gSystem := gSystem g; gSystemCore := gSystemCore g;
     explosionDescription := explosionDescription g;
     loopingAmbienceInstance := v;
     cancelInstance := cancelInstance g |}.

Definition set_cancelInstance (v : option Obj) (g : Globals) : Globals :=
  {| gSystem := gSystem g; gSystemCore := gSystemCore g;
     explosionDescription := explosionDescription g;
     loopingAmbienceInstance := loopingAmbienceInstance g;
     cancelInstance := v |}.

Definition error_message (result : Z) : string :=
  "Error!!! '" ++ FMOD_ErrorString result ++ "'".

Definition CHECK_RESULT (result : Z) : M Globals unit :=
  if negb (result =? FMOD_OK)%Z then
    let msg := error_message result in
    alert msg ;;
    throw (Thrown msg)
  else ret tt.

Definition prerun : Preload unit :=
  let fileUrl := "/public/js/" in
  let folderName := "/" in
  let canRead := true in
  let canWrite := false in
  let fileName := ["Master.bank"; "Master.strings.bank"; "SFX.bank"] in
  for_count
    (fun count name =>
       (pre_set_value "#display_out2" ("Loading " ++ name ++ "...") ;;
        FS_createPreloadedFile folderName name (fileUrl ++ name) canRead canWrite)%preload)
    0 fileName.

Definition loadBank (name : string) : M Globals unit :=
  system <- global gSystem ;;
  '(result, bankhandle) <- call (loadBankFile system ("/" ++ name) FMOD_STUDIO_LOAD_BANK_NORMAL) ;;
  CHECK_RESULT result.

Definition initApplication : M Globals unit :=
  console_log ("Loading events" ++ LF) [] ;;
  loadBank "Master.bank" ;;
  loadBank "Master.strings.bank" ;;
  loadBank "SFX.bank" ;;
  system <- global gSystem ;;
  '(result, loopingAmbienceDescription) <- call (getEvent system "event:/Ambience/Country") ;;
  CHECK_RESULT result ;;
  '(result, instance) <- call (createInstance loopingAmbienceDescription) ;;
  modify (set_loopingAmbienceInstance (Some instance)) ;;
  CHECK_RESULT result ;;
  system <- global gSystem ;;
  '(result, cancelDescription) <- call (getEvent system "event:/UI/Cancel") ;;
  CHECK_RESULT result ;;
  '(result, instance) <- call (createInstance cancelDescription) ;;
  modify (set_cancelInstance (Some instance)) ;;
  CHECK_RESULT result ;;
  system <- global gSystem ;;
  '(result, description) <- call (getEvent system "event:/Weapons/Explosion") ;;
  modify (set_explosionDescription (Some description)) ;;
  CHECK_RESULT result ;;
  description <- global explosionDescription ;;
  '(result, _) <- call (loadSampleData description) ;;
  CHECK_RESULT result ;;
  enable "playEvent0" ;;
  enable "playEvent1" ;;
  enable "playEvent2" ;;
  enable "playEvent3".

Definition main : M Globals Z :=
  console_log ("Creating FMOD System object" ++ LF) [] ;;
  '(result, outval) <- call Studio_System_Create ;;
  CHECK_RESULT result ;;
  console_log ("grabbing system object from temporary and storing it" ++ LF) [] ;;
  modify (set_gSystem (Some outval)) ;;
  system <- global gSystem ;;
  '(result, outval) <- call (getCoreSystem system) ;;
  CHECK_RESULT result ;;
  modify (set_gSystemCore (Some outval)) ;;
  console_log ("set DSP Buffer size." ++ LF) [] ;;
  core <- global gSystemCore ;;
  '(result, _) <- call (setDSPBufferSize core 2048 2) ;;
  CHECK_RESULT result ;;
  console_log "Set mixer sample rate" [] ;;
  core <- global gSystemCore ;;
  '(result, outval) <- call (getDriverInfo core 0) ;;
  CHECK_RESULT result ;;
  core <- global gSystemCore ;;
  '(result, _) <- call (setSoftwareFormat core outval FMOD_SPEAKERMODE_DEFAULT 0) ;;
  CHECK_RESULT result ;;
  console_log ("initialize FMOD" ++ LF) [] ;;
  system <- global gSystem ;;
  '(result, _) <- call (initialize system 1024 FMOD_STUDIO_INIT_NORMAL FMOD_INIT_NORMAL) ;;
  CHECK_RESULT result ;;
  console_log ("initialize Application" ++ LF) [] ;;
  initApplication ;;
  console_log ("Start game loop" ++ LF) [] ;;
  setInterval fn_updateApplication 20 ;;
  ret FMOD_OK.

Definition playEvent (soundid : Z) : M Globals unit :=
  if (soundid =? 0)%Z then
    description <- global explosionDescription ;;
    '(result, eventInstance) <- call (createInstance description) ;;
    CHECK_RESULT result ;;
    '(result, _) <- call (start eventInstance) ;;
    CHECK_RESULT result ;;
    '(result, _) <- call (release eventInstance) ;;
    CHECK_RESULT result
  else if (soundid =? 1)%Z then
    instance <- global loopingAmbienceInstance ;;
    '(result, _) <- call (start instance) ;;
    CHECK_RESULT result
  else if (soundid =? 2)%Z then
    instance <- global loopingAmbienceInstance ;;
    '(result, _) <- call (stop instance FMOD_STUDIO_STOP_IMMEDIATE) ;;
    CHECK_RESULT result
  else if (soundid =? 3)%Z then
    instance <- global cancelInstance ;;
    '(result, _) <- call (start instance) ;;
    CHECK_RESULT result
  else ret tt.

Definition display_out (channelsplaying : Number) (cpu : CPU_USAGE) : string :=
  "Channels Playing = " ++ num_toString channelsplaying ++
  " : CPU = dsp " ++ num_toFixed (cpu_dsp cpu) 2 ++
  "% stream " ++ num_toFixed (cpu_stream cpu) 2 ++
  "% update " ++ num_toFixed (cpu_update cpu) 2 ++
  "% total " ++ num_toFixed (num_add (num_add (cpu_dsp cpu) (cpu_stream cpu)) (cpu_update cpu)) 2 ++
  "%".

Definition display_out2 (rate sysrate numbuffers buffersize : Number) : string :=
  let ms := num_div (num_mul (num_mul numbuffers buffersize) (num_of_Z 1000)) rate in
  "Mixer rate = " ++ num_toString rate ++ "hz : System rate = " ++ num_toString sysrate ++
  "hz : DSP buffer size = " ++ num_toString numbuffers ++ " buffers of " ++
  num_toString buffersize ++ " samples (" ++ num_toFixed ms 2 ++ " ms)".

Definition updateApplication : M Globals unit :=
  core <- global gSystemCore ;;
  '(result, cpu) <- call (getCPUUsage core) ;;
  CHECK_RESULT result ;;
  core <- global gSystemCore ;;
  '(result, channelsplaying) <- call (getChannelsPlaying core) ;;
  CHECK_RESULT result ;;
  set_value "#display_out" (display_out channelsplaying cpu) ;;
  core <- global gSystemCore ;;
  '(result, (buffersize, numbuffers)) <- call (getDSPBufferSize core) ;;
  CHECK_RESULT result ;;
  core <- global gSystemCore ;;
  '(result, rate) <- call (getSoftwareFormat core) ;;
  CHECK_RESULT result ;;
  core <- global gSystemCore ;;
  '(result, sysrate) <- call (getDriverInfo core 0) ;;
  CHECK_RESULT result ;;
  set_value "#display_out2" (display_out2 rate sysrate numbuffers buffersize) ;;
  system <- global gSystem ;;
  '(result, _) <- call (update system) ;;
  CHECK_RESULT result.

(** What the page triggers once [main] has run: a press of one of the
    play buttons, or a tick of the interval timer. *)
Inductive Action : Type :=
| Press (soundid : Z)
| Tick.

Definition handler (a : Action) : M Globals unit :=
  match a with
  | Press soundid => playEvent soundid
  | Tick => updateApplication
  end.

End Script.
End SimpleEvent.

(** * music_callbacks.js *)

Module MusicCallbacks.
Section Script.
Context {JSN : JSNumber} {H : Host}.

(** [gEventInstance] starts as an empty object, which has no engine
    methods ([None]), and is assigned the created instance by
    [initApplication].  [gProgression] only ever holds 0 or 1. *)
Record Globals : Type := {
  gSystem : option Obj;
  gSystemCore : option Obj;
  gEventInstance : option Obj;
  gProgression : Z;
  gProgressionID : option PARAMETER_ID
}.

Definition initial : Globals :=
  {| gSystem := None; gSystemCore := None; gEventInstance := None;
     gProgression := 0; gProgressionID := None |}.

Definition set_gSystem (v : option Obj) (g : Globals) : Globals :=
  {| gSystem := v; gSystemCore := gSystemCore g; gEventInstance := gEventInstance g;
     gProgression := gProgression g; gProgressionID := gProgressionID g |}.

Definition set_gSystemCore (v : option Obj) (g : Globals) : Globals :=
  {| gSystem := gSystem g; gSystemCore := v; gEventInstance := gEventInstance g;
     gProgression := gProgression g; gProgressionID := gProgressionID g |}.

Definition set_gEventInstance (v : option Obj) (g : Globals) : Globals :=
  {| gSystem := gSystem g; gSystemCore := gSystemCore g; gEventInstance := v;
     gProgression := gProgression g; gProgressionID := gProgressionID g |}.

Definition set_gProgression (v : Z) (g : Globals) : Globals :=
  {| gSystem := gSystem g; gSystemCore := gSystemCore g; gEventInstance := gEventInstance g;
     gProgression := v; gProgressionID := gProgressionID g |}.

Definition set_gProgressionID (v : option PARAMETER_ID) (g : Globals) : Globals :=
  {| gSystem := gSystem g; gSystemCore := gSystemCore g; gEventInstance := gEventInstance g;
     gProgression := gProgression g; gProgressionID := v |}.

Definition error_message (result : Z) : string :=
  "Error!!! '" ++ FMOD_ErrorString result ++ "'".

Definition CHECK_RESULT (result : Z) : M Globals unit :=
  if negb (result =? FMOD_OK)%Z then
    let msg := error_message result in
    alert msg ;;
    throw (Thrown msg)
  else ret tt.

Definition prerun : Preload unit :=
  let fileUrl := "/public/js/" in
  let folderName := "/" in
  let canRead := true in
  let canWrite := false in
  let fileName := ["Master.bank"; "Master.strings.bank"; "Music.bank"] in
  for_count
    (fun count name =>
       (pre_set_value "#display_out2" ("Loading " ++ name ++ "...") ;;
        FS_createPreloadedFile folderName name (fileUrl ++ name) canRead canWrite)%preload)
    0 fileName.

Definition toggleProgression : M Globals unit :=
  modify (fun g => set_gProgression (if (gProgression g =? 0)%Z then 1 else 0) g) ;;
  instance <- global gEventInstance ;;
  pid <- gets gProgressionID ;;
  value <- gets gProgression ;;
  '(result, _) <- call (setParameterByID instance pid value false) ;;
  CHECK_RESULT result ;;
  value <- gets gProgression ;;
  console_log ("------------- TOGGLED PROGRESSION TO " ++ string_of_Z value) [].

Definition loadBank (name : string) : M Globals unit :=
  system <- global gSystem ;;
  '(result, bankhandle) <- call (loadBankFile system ("/" ++ name) FMOD_STUDIO_LOAD_BANK_NORMAL) ;;
  CHECK_RESULT result.

(** The callback the engine invokes with the callback type, the event
    instance and a type-dependent object: a property block for markers and
    beats, the sound for sound-played and sound-stopped. *)
Definition markerCallback (type : Z) (event parameters : Obj) : M Globals Z :=
  (if (type =? FMOD_STUDIO_EVENT_CALLBACK_TIMELINE_MARKER)%Z then
     let props := parameters in
     console_log "Named marker '%s'" [property props "name"]
   else if (type =? FMOD_STUDIO_EVENT_CALLBACK_TIMELINE_BEAT)%Z then
     let props := parameters in
     console_log "beat %d, bar %d (tempo %.1f %d:%d)"
       [property props "beat"; property props "bar"; property props "tempo";
        property props "timesignatureupper"; property props "timesignaturelower"]
   else if (type =? FMOD_STUDIO_EVENT_CALLBACK_SOUND_PLAYED)%Z
           || (type =? FMOD_STUDIO_EVENT_CALLBACK_SOUND_STOPPED)%Z then
     let sound := parameters in
     '(result, name) <- call (getName sound) ;;
     CHECK_RESULT result ;;
     '(result, len) <- call (getLength sound FMOD_TIMEUNIT_MS) ;;
     CHECK_RESULT result ;;
     console_log "Sound '%s' (length %.3f) %s"
       [JStr name; JNum (num_div len (num_of_Z 1000));
        JStr (if (type =? FMOD_STUDIO_EVENT_CALLBACK_SOUND_PLAYED)%Z
              then "Started" else "Stopped")]
   else ret tt) ;;
  ret FMOD_OK.

(** The mask passed to [setCallback].  Its first operand in the script is
    [FMOD.DSTUDIO_EVENT_CALLBACK_TIMELINE_MARKER], a property the [FMOD]
    object does not have; bitwise or reads the undefined value as 0. *)
Definition callbackmask : Z :=
  Z.lor (Z.lor (Z.lor 0 FMOD_STUDIO_EVENT_CALLBACK_TIMELINE_BEAT)
               FMOD_STUDIO_EVENT_CALLBACK_SOUND_PLAYED)
        FMOD_STUDIO_EVENT_CALLBACK_SOUND_STOPPED.

Definition initApplication : M Globals unit :=
  console_log ("Loading events" ++ LF) [] ;;
  loadBank "Master.bank" ;;
  loadBank "Master.strings.bank" ;;
  loadBank "Music.bank" ;;
  system <- global gSystem ;;
  '(result, outval) <- call (getEvent system "event:/Music/Level 01") ;;
  CHECK_RESULT result ;;
  let eventDescription := outval in
  '(result, outval) <- call (createInstance eventDescription) ;;
  CHECK_RESULT result ;;
  modify (set_gEventInstance (Some outval)) ;;
  instance <- global gEventInstance ;;
  '(result, _) <- call (setCallback instance fn_markerCallback callbackmask) ;;
  CHECK_RESULT result ;;
  instance <- global gEventInstance ;;
  '(result, _) <- call (start instance) ;;
  CHECK_RESULT result ;;
  '(result, parameterDescription) <-
     call (getParameterDescriptionByName eventDescription "Progression") ;;
  CHECK_RESULT result ;;
  modify (set_gProgressionID (Some (pd_id parameterDescription))) ;;
  instance <- global gEventInstance ;;
  pid <- gets gProgressionID ;;
  value <- gets gProgression ;;
  '(result, _) <- call (setParameterByID instance pid value false) ;;
  CHECK_RESULT result ;;
  enable "toggleid".

Definition main : M Globals Z :=
  console_log ("Creating FMOD System object" ++ LF) [] ;;
  '(result, outval) <- call Studio_System_Create ;;
  CHECK_RESULT result ;;
  console_log ("grabbing system object from temporary and storing it" ++ LF) [] ;;
  modify (set_gSystem (Some outval)) ;;
  system <- global gSystem ;;
  '(result, outval) <- call (getCoreSystem system) ;;
  CHECK_RESULT result ;;
  modify (set_gSystemCore (Some outval)) ;;
  console_log ("set DSP Buffer size." ++ LF) [] ;;
  core <- global gSystemCore ;;
  '(result, _) <- call (setDSPBufferSize core 2048 2) ;;
  CHECK_RESULT result ;;
  (* the block that sets the mixer sample rate is commented out here *)
  console_log ("initialize FMOD" ++ LF) [] ;;
  system <- global gSystem ;;
  '(result, _) <- call (initialize system 1024 FMOD_STUDIO_INIT_NORMAL FMOD_INIT_NORMAL) ;;
  CHECK_RESULT result ;;
  console_log ("initialize Application" ++ LF) [] ;;
  initApplication ;;
  console_log ("Start game loop" ++ LF) [] ;;
  setInterval fn_updateApplication 20 ;;
  ret FMOD_OK.

Definition display_out (channelsplaying : Number) (cpu : CPU_USAGE) : string :=
  "Channels Playing = " ++ num_toString channelsplaying ++
  " : CPU = dsp " ++ num_toFixed (cpu_dsp cpu) 2 ++
  "% stream " ++ num_toFixed (cpu_stream cpu) 2 ++
  "% update " ++ num_toFixed (cpu_update cpu) 2 ++
  "% total " ++ num_toFixed (num_add (num_add (cpu_dsp cpu) (cpu_stream cpu)) (cpu_update cpu)) 2 ++
  "%".

Definition display_out2 (rate sysrate numbuffers buffersize : Number) : string :=
  let ms := num_div (num_mul (num_mul numbuffers buffersize) (num_of_Z 1000)) rate in
  "Mixer rate = " ++ num_toString rate ++ "hz : System rate = " ++ num_toString sysrate ++
  "hz : DSP buffer size = " ++ num_toString numbuffers ++ " buffers of " ++
  num_toString buffersize ++ " samples (" ++ num_toFixed ms 2 ++ " ms)".

Definition updateApplication : M Globals unit :=
  core <- global gSystemCore ;;
  '(result, cpu) <- call (getCPUUsage core) ;;
  CHECK_RESULT result ;;
  core <- global gSystemCore ;;
  '(result, channelsplaying) <- call (getChannelsPlaying core) ;;
  CHECK_RESULT result ;;
  set_value "#display_out" (display_out channelsplaying cpu) ;;
  core <- global gSystemCore ;;
  '(result, (buffersize, numbuffers)) <- call (getDSPBufferSize core) ;;
  CHECK_RESULT result ;;
  core <- global gSystemCore ;;
  '(result, rate) <- call (getSoftwareFormat core) ;;
  CHECK_RESULT result ;;
  core <- global gSystemCore ;;
  '(result, sysrate) <- call (getDriverInfo core 0) ;;
  CHECK_RESULT result ;;
  set_value "#display_out2" (display_out2 rate sysrate numbuffers buffersize) ;;
  system <- global gSystem ;;
  '(result, _) <- call (update system) ;;
  CHECK_RESULT result.

(** What the page triggers once [main] has run: a press of the toggle
    button, or a tick of the interval timer. *)
Inductive Action : Type :=
| Toggle
| Tick.

Definition handler (a : Action) : M Globals unit :=
  match a with
  | Toggle => toggleProgression
  | Tick => updateApplication
  end.

End Script.
End MusicCallbacks.

(** * The third script (src/unnamed/part_000) *)

Module Part000.
Section Script.
Context {JSN : JSNumber} {H : Host}.

Record Globals : Type := {
  gSystem : option Obj;
  gSystemCore : option Obj;
  loopingAmbienceInstance : option Obj;
  gAudioResumed : bool
}.

Definition initial : Globals :=
  {| gSystem := None; gSystemCore := None; loopingAmbienceInstance := None;
     gAudioResumed := false |}.

Definition set_gSystem (v : option Obj) (g : Globals) : Globals :=
  {| gSystem := v; gSystemCore := gSystemCore g;
     loopingAmbienceInstance := loopingAmbienceInstance g;
     gAudioResumed := gAudioResumed g |}.

Definition set_gSystemCore (v : option Obj) (g : Globals) : Globals :=
  {| gSystem := gSystem g; gSystemCore := v;
     loopingAmbienceInstance := loopingAmbienceInstance g;
     gAudioResumed := gAudioResumed g |}.

Definition set_loopingAmbienceInstance (v : option Obj) (g : Globals) : Globals :=
  {| gSystem := gSystem g; gSystemCore := gSystemCore g;
     loopingAmbienceInstance := v;
     gAudioResumed := gAudioResumed g |}.

Definition set_gAudioResumed (v : bool) (g : Globals) : Globals :=
  {| gSystem := gSystem g; gSystemCore := gSystemCore g;
     loopingAmbienceInstance := loopingAmbienceInstance g;
     gAudioResumed := v |}.

Definition error_message (result : Z) : string :=
  "Error!!! '" ++ FMOD_ErrorString result ++ "'".

Definition CHECK_RESULT (result : Z) : M Globals unit :=
  if negb (result =? FMOD_OK)%Z then
    let msg := error_message result in
    alert msg ;;
    throw (Thrown msg)
  else ret tt.

Definition prerun : Preload unit :=
  (pre_log "FMOD preRun. Mounting files..." ;;
   let fileUrl := "/assets/media/" in
   let folderName := "/" in
   let canRead := true in
   let canWrite := false in
   let fileName := ["Master.bank"; "Master.strings.bank"] in
   for_count
     (fun count name =>
        FS_createPreloadedFile folderName name (fileUrl ++ name) canRead canWrite ;;
        pre_log (string_of_Z count ++ " Bank"))
     0 fileName ;;
   pre_log "Finished Prerun")%preload.

Definition playEvent (soundid : Z) : M Globals unit :=
  if (soundid =? 0)%Z then
    instance <- global loopingAmbienceInstance ;;
    '(result, _) <- call (start instance) ;;
    CHECK_RESULT result
  else if (soundid =? 1)%Z then
    instance <- global loopingAmbienceInstance ;;
    '(result, _) <- call (stop instance FMOD_STUDIO_STOP_IMMEDIATE) ;;
    CHECK_RESULT result
  else ret tt.

Definition loadBank (name : string) : M Globals unit :=
  system <- global gSystem ;;
  '(result, bankhandle) <- call (loadBankFile system ("/" ++ name) FMOD_STUDIO_LOAD_BANK_NORMAL) ;;
  CHECK_RESULT result.

Definition initApplication : M Globals unit :=
  console_log ("Loading events" ++ LF) [] ;;
  loadBank "Master.bank" ;;
  loadBank "Master.strings.bank" ;;
  system <- global gSystem ;;
  '(result, loopingAmbienceDescription) <- call (getEvent system "event:/Music") ;;
  CHECK_RESULT result ;;
  '(result, instance) <- call (createInstance loopingAmbienceDescription) ;;
  modify (set_loopingAmbienceInstance (Some instance)) ;;
  CHECK_RESULT result ;;
  enable "playEvent0" ;;
  enable "playEvent1".

(** The listener [main] declares and registers for click or touch. *)
Definition resumeAudio : M Globals unit :=
  resumed <- gets gAudioResumed ;;
  if negb resumed then
    core <- global gSystemCore ;;
    '(result, _) <- call (mixerSuspend core) ;;
    CHECK_RESULT result ;;
    core <- global gSystemCore ;;
    '(result, _) <- call (mixerResume core) ;;
    CHECK_RESULT result ;;
    modify (set_gAudioResumed true)
  else ret tt.

Definition main : M Globals Z :=
  console_log ("Creating FMOD System object" ++ LF) [] ;;
  '(result, outval) <- call Studio_System_Create ;;
  CHECK_RESULT result ;;
  console_log ("grabbing system object from temporary and storing it" ++ LF) [] ;;
  modify (set_gSystem (Some outval)) ;;
  system <- global gSystem ;;
  '(result, outval) <- call (getCoreSystem system) ;;
  CHECK_RESULT result ;;
  modify (set_gSystemCore (Some outval)) ;;
  console_log ("set DSP Buffer size." ++ LF) [] ;;
  core <- global gSystemCore ;;
  '(result, _) <- call (setDSPBufferSize core 2048 2) ;;
  CHECK_RESULT result ;;
  console_log "Set mixer sample rate" [] ;;
  core <- global gSystemCore ;;
  '(result, outval) <- call (getDriverInfo core 0) ;;
  CHECK_RESULT result ;;
  core <- global gSystemCore ;;
  '(result, _) <- call (setSoftwareFormat core outval FMOD_SPEAKERMODE_DEFAULT 0) ;;
  CHECK_RESULT result ;;
  console_log ("initialize FMOD" ++ LF) [] ;;
  system <- global gSystem ;;
  '(result, _) <- call (initialize system 1024 FMOD_STUDIO_INIT_NORMAL FMOD_INIT_NORMAL) ;;
  CHECK_RESULT result ;;
  console_log ("initialize Application" ++ LF) [] ;;
  initApplication ;;
  (if iOS
   then addEventListener "window" "touchend" fn_resumeAudio
   else addEventListener "document" "click" fn_resumeAudio) ;;
  console_log ("Start game loop" ++ LF) [] ;;
  setInterval fn_updateApplication 20 ;;
  ret FMOD_OK.

Definition display_out (channelsplaying : Number) (cpu : CPU_USAGE) : string :=
  "Channels Playing = " ++ num_toString channelsplaying ++
  " : CPU = dsp " ++ num_toFixed (cpu_dsp cpu) 2 ++
  "% stream " ++ num_toFixed (cpu_stream cpu) 2 ++
  "% update " ++ num_toFixed (cpu_update cpu) 2 ++
  "% total " ++ num_toFixed (num_add (num_add (cpu_dsp cpu) (cpu_stream cpu)) (cpu_update cpu)) 2 ++
  "%".

Definition display_out2 (rate sysrate numbuffers buffersize : Number) : string :=
  let ms := num_div (num_mul (num_mul numbuffers buffersize) (num_of_Z 1000)) rate in
  "Mixer rate = " ++ num_toString rate ++ "hz : System rate = " ++ num_toString sysrate ++
  "hz : DSP buffer size = " ++ num_toString numbuffers ++ " buffers of " ++
  num_toString buffersize ++ " samples (" ++ num_toFixed ms 2 ++ " ms)".

Definition updateApplication : M Globals unit :=
  core <- global gSystemCore ;;
  '(result, cpu) <- call (getCPUUsage core) ;;
  CHECK_RESULT result ;;
  core <- global gSystemCore ;;
  '(result, channelsplaying) <- call (getChannelsPlaying core) ;;
  CHECK_RESULT result ;;
  set_value "#display_out" (display_out channelsplaying cpu) ;;
  core <- global gSystemCore ;;
  '(result, (buffersize, numbuffers)) <- call (getDSPBufferSize core) ;;
  CHECK_RESULT result ;;
  core <- global gSystemCore ;;
  '(result, rate) <- call (getSoftwareFormat core) ;;
  CHECK_RESULT result ;;
  core <- global gSystemCore ;;
  '(result, sysrate) <- call (getDriverInfo core 0) ;;
  CHECK_RESULT result ;;
  set_value "#display_out2" (display_out2 rate sysrate numbuffers buffersize) ;;
  system <- global gSystem ;;
  '(result, _) <- call (update system) ;;
  CHECK_RESULT result.

(** What the page triggers once [main] has run: a press of a play button,
    a tick of the interval timer, or a click or touch that reaches the
    registered [resumeAudio] listener. *)
Inductive Action : Type :=
| Press (soundid : Z)
| Tick
| Touch.

Definition handler (a : Action) : M Globals unit :=
  match a with
  | Press soundid => playEvent soundid
  | Tick => updateApplication
  | Touch => resumeAudio
  end.

End Script.
End Part000.

(** * What the scripts are expected to do *)

Section Statements.
Context {JSN : JSNumber} {H : Host}.

(** The text [CHECK_RESULT] shows and throws for a result code. *)
Definition failure_message (result : Z) : string :=
  "Error!!! '" ++ FMOD_ErrorString result ++ "'".

(** A result checker either returns without a trace, or alerts and
    throws the failure message, so that whatever follows it is skipped. *)
Definition returns_or_alerts_and_throws {G} (check : Z -> M G unit) : Prop :=
  forall (result : Z) (w : World G),
    (result = FMOD_OK -> check result w = (Returned tt, w, [])) /\
    (result <> FMOD_OK ->
       check result w =
         (Raised (Thrown (failure_message result)), w, [EAlert (failure_message result)]) /\
       forall (A : Type) (rest : M G A),
         (check result ;; rest) w =
           (Raised (Thrown (failure_message result)), w, [EAlert (failure_message result)])).

(** Reading an event list from the left: every engine call before the
    end returned [FMOD.OK]; a call that did not is followed by the alert
    alone, and the run ended with the exception. *)
Fixpoint ends_at_failure {A} (o : Outcome A) (evs : list Event) : Prop :=
  match evs with
  | [] => True
  | ECall c result _ :: rest =>
      if (result =? FMOD_OK)%Z then ends_at_failure o rest
      else rest = [EAlert (failure_message result)] /\
           o = Raised (Thrown (failure_message result))
  | _ :: rest => ends_at_failure o rest
  end.

Definition halts {G A} (m : M G A) : Prop :=
  forall w, ends_at_failure (outcome (m w)) (events (m w)).

(** An operation aborts at a failed call: wherever a call with a result
    other than [FMOD.OK] stands in its events, only the alert follows and
    the operation ended by throwing the message. *)
Definition aborts_at_failure {G A} (m : M G A) : Prop :=
  forall (w : World G) (pre : list Event) (c : Call) (result : Z) (out : OutVal)
         (post : list Event),
    events (m w) = (pre ++ ECall c result out :: post)%list ->
    result <> FMOD_OK ->
    post = [EAlert (failure_message result)] /\
    outcome (m w) = Raised (Thrown (failure_message result)).

Definition all_ok (evs : list Event) : Prop :=
  forall c result out, In (ECall c result out) evs -> result = FMOD_OK.

Definition result_ok (e : Event) : bool :=
  match e with
  | ECall _ result _ => (result =? FMOD_OK)%Z
  | _ => true
  end.

(** The engine calls of a complete tick, for the handles the globals hold. *)
Definition tick_calls (core system : option Obj) : list Call :=
  match core with
  | None => []
  | Some c =>
      [getCPUUsage c; getChannelsPlaying c; getDSPBufferSize c;
       getSoftwareFormat c; getDriverInfo c 0] ++
      match system with
      | None => []
      | Some s => [update s]
      end
  end%list.

Definition is_update (c : Call) : bool :=
  match c with update _ => true | _ => false end.

(** A tick makes an initial segment of [tick_calls]; a tick that returns
    made all of them, the five statistics queries and then the one
    [update], each answered [FMOD.OK], and wrote the two text fields from
    the statistics it was given.  [text1] and [text2] are the script's two
    display strings. *)
Definition polls_then_updates_once {G} (gCore gSys : G -> option Obj)
    (text1 : Number -> CPU_USAGE -> string)
    (text2 : Number -> Number -> Number -> Number -> string)
    (tick : M G unit) : Prop :=
  forall w : World G,
    (exists n : nat,
        calls (events (tick w)) = firstn n (tick_calls (gCore (globals w)) (gSys (globals w)))) /\
    (List.length (filter is_update (calls (events (tick w)))) <= 1)%nat /\
    (outcome (tick w) = Returned tt ->
       exists core system cpu channelsplaying buffersize numbuffers rate sysrate,
         gCore (globals w) = Some core /\ gSys (globals w) = Some system /\
         events (tick w) =
           [ECall (getCPUUsage core) FMOD_OK (OCpu cpu);
            ECall (getChannelsPlaying core) FMOD_OK (ONum channelsplaying);
            ESetValue "#display_out" (text1 channelsplaying cpu);
            ECall (getDSPBufferSize core) FMOD_OK (OPair buffersize numbuffers);
            ECall (getSoftwareFormat core) FMOD_OK (ONum rate);
            ECall (getDriverInfo core 0) FMOD_OK (ONum sysrate);
            ESetValue "#display_out2" (text2 rate sysrate numbuffers buffersize);
            ECall (update system) FMOD_OK ONone]).

(** A tick does run to its end: started with both handles set, on a page
    that has the two text fields, it returns unless the engine answers one
    of its calls with a result other than [FMOD.OK]. *)
Definition tick_completes {G} (gCore gSys : G -> option Obj) (tick : M G unit) : Prop :=
  forall (w : World G) (core system : Obj),
    gCore (globals w) = Some core ->
    gSys (globals w) = Some system ->
    has_element "#display_out" = true ->
    has_element "#display_out2" = true ->
    all_ok (events (tick w)) ->
    outcome (tick w) = Returned tt.

(** The engine calls [main] makes before application setup, each with
    what it stored: the system created is the one asked for its core
    system and later initialized, the core system is the one configured,
    and the rate passed to [setSoftwareFormat] is the one [getDriverInfo]
    stored. *)
Definition startup_answers (sets_rate : bool) (system core : Obj) (rate : Number)
  : list (Call * OutVal) :=
  ([(Studio_System_Create, OObj system);
    (getCoreSystem system, OObj core);
    (setDSPBufferSize core 2048 2, ONone)] ++
   (if sets_rate
    then [(getDriverInfo core 0, ONum rate);
          (setSoftwareFormat core rate FMOD_SPEAKERMODE_DEFAULT 0, ONone)]
    else []) ++
   [(initialize system 1024 FMOD_STUDIO_INIT_NORMAL FMOD_INIT_NORMAL, ONone)])%list.

Definition startup_calls (sets_rate : bool) (system core : Obj) (rate : Number) : list Call :=
  map fst (startup_answers sets_rate system core rate).

(** [main] starts the timer as its last effect and only when everything
    before it succeeded: a run that contains a timer start returned
    [FMOD.OK], and a run that returned consists of the startup calls, all
    answered [FMOD.OK], then the events of [initApplication], then
    [between], then the one timer start. *)
Definition starts_timer_last {G} (sets_rate : bool) (main : M G Z)
    (initApplication : M G unit) (between : list Event) : Prop :=
  forall w : World G,
    (forall handler ms,
        In (ESetInterval handler ms) (events (main w)) -> outcome (main w) = Returned FMOD_OK) /\
    (forall r, outcome (main w) = Returned r ->
       r = FMOD_OK /\
       exists system core rate startup w1 setup,
         events (main w) =
           (startup ++ setup ++ between ++
            [ELog ("Start game loop" ++ LF) []; ESetInterval fn_updateApplication 20])%list /\
         answers startup = startup_answers sets_rate system core rate /\
         all_ok startup /\
         initApplication w1 = (Returned tt, final (main w), setup) /\
         filter is_timer (startup ++ setup ++ between)%list = []).

(** In every run of [main], also one cut short, the engine calls begin
    with the start-up calls in their order: a run that made fewer calls
    than the start-up has made an initial segment of them, and a run that
    made more made all of them first. *)
Definition starts_in_order {G} (sets_rate : bool) (main : M G Z) : Prop :=
  forall w : World G,
    exists system core rate (n : nat),
      firstn (List.length (startup_answers sets_rate system core rate))
        (answers (events (main w))) =
        firstn n (startup_answers sets_rate system core rate).

(** [main] does run to its end: on a page that has the controls
    application setup enables, it returns [FMOD.OK] unless the engine
    answers one of its calls with a result other than [FMOD.OK]. *)
Definition startup_completes {G} (controls : list string) (main : M G Z) : Prop :=
  forall w : World G,
    (forall control, In control controls -> has_element control = true) ->
    all_ok (events (main w)) ->
    outcome (main w) = Returned FMOD_OK.

(** What can be seen of a run from outside the script's own globals. *)
Definition observe {G A} (run : Outcome A * World G * list Event)
  : Outcome A * Engine * list Event :=
  (outcome run, engine (final run), events run).

(** The effects allowed to [markerCallback]: queries on the object it was
    passed, log lines, and the alert of a failed check. *)
Definition callback_effect (parameters : Obj) (e : Event) : Prop :=
  match e with
  | ECall c _ _ => is_query c = true /\ receiver c = Some parameters
  | ELog _ _ => True
  | EAlert _ => True
  | _ => False
  end.

(** The handle-valued globals of each script. *)
Definition simple_handles (g : SimpleEvent.Globals) :=
  (SimpleEvent.gSystem g, SimpleEvent.gSystemCore g, SimpleEvent.explosionDescription g,
   SimpleEvent.loopingAmbienceInstance g, SimpleEvent.cancelInstance g).

Definition music_handles (g : MusicCallbacks.Globals) :=
  (MusicCallbacks.gSystem g, MusicCallbacks.gSystemCore g, MusicCallbacks.gEventInstance g,
   MusicCallbacks.gProgressionID g).

Definition part_handles (g : Part000.Globals) :=
  (Part000.gSystem g, Part000.gSystemCore g, Part000.loopingAmbienceInstance g).

(** A computation leaves a view of the globals as it found it, however it ends. *)
Definition frames {G X A} (view : G -> X) (m : M G A) : Prop :=
  forall w : World G, view (globals (final (m w))) = view (globals w).

(** So does every sequence of handler invocations. *)
Definition keeps {G X Y} (view : G -> X) (handler : Y -> M G unit) : Prop :=
  forall (todo : list Y) (w : World G),
    view (globals (fst (dispatch handler todo w))) = view (globals w).

(** A [mixerResume] call that returned [FMOD.OK]: the suspend/resume pair
    ran to its end. *)
Definition completes_pair (e : Event) : bool :=
  match e with
  | ECall (mixerResume _) result _ => (result =? FMOD_OK)%Z
  | _ => false
  end.

(** The start-up sequence with the sample-rate step, read as a property
    of an event list: its engine calls begin with the six start-up calls. *)
Definition begins_with_full_startup (evs : list Event) : Prop :=
  exists system core rate rest,
    calls evs = (startup_calls true system core rate ++ rest)%list.

(** Neither call of the suspend/resume pair occurs more than once. *)
Definition pair_executed_at_most_once (evs : list Event) : Prop :=
  (List.length (filter is_mixerSuspend (calls evs)) <= 1)%nat /\
  (List.length (filter is_mixerResume (calls evs)) <= 1)%nat.

(** [n] clicks or touches, each delivered to [resumeAudio]. *)
Definition touches (n : nat) (w : World Part000.Globals) : World Part000.Globals * list Event :=
  dispatch Part000.handler (repeat Part000.Touch n) w.

(** The actions of the third script's page other than a click or touch. *)
Definition part_not_touch (a : Part000.Action) : bool :=
  match a with Part000.Touch => false | _ => true end.

(** Neither a button press nor a tick touches [gAudioResumed] or calls
    the mixer. *)
Definition leaves_resuming_alone (m : M Part000.Globals unit) : Prop :=
  forall w : World Part000.Globals,
    Part000.gAudioResumed (globals (final (m w))) = Part000.gAudioResumed (globals w) /\
    filter completes_pair (events (m w)) = [] /\
    filter is_mixerSuspend (calls (events (m w))) = [] /\
    filter is_mixerResume (calls (events (m w))) = [].

End Statements.

(** * Further statements *)

Section FurtherStatements.
Context {JSN : JSNumber} {H : Host}.

(** The file names of the [loadBankFile] calls of a call list, in order. *)
Fixpoint bank_files (cs : list Call) : list string :=
  match cs with
  | [] => []
  | loadBankFile _ filename _ :: rest => filename :: bank_files rest
  | _ :: rest => bank_files rest
  end.

(** The paths a preload run mounted, in order. *)
Definition mounted_paths (evs : list PreloadEvent) : list string :=
  map (fun m => fst (fst (fst m))) (mounts evs).

(** Whenever [prerun] returned, the bank files [initApplication] asks the
    engine for are an initial segment of the files [prerun] mounted, and
    all of them when [initApplication] returns. *)
Definition loads_what_was_mounted {G} (prerun : Preload unit) (initApplication : M G unit)
  : Prop :=
  fst prerun = Returned tt ->
  forall w : World G,
    (exists n : nat,
        bank_files (calls (events (initApplication w))) =
          firstn n (mounted_paths (snd prerun))) /\
    (outcome (initApplication w) = Returned tt ->
     bank_files (calls (events (initApplication w))) = mounted_paths (snd prerun)).

(** [main] stores in the two globals what the engine answered to
    [Studio_System_Create] and to [getCoreSystem], each only when the call
    returned [FMOD.OK], and nothing later in [main] changes them. *)
Definition stores_system_and_core {G} (gSys gCore : G -> option Obj) (main : M G Z) : Prop :=
  forall w : World G,
    match respond (engine w) Studio_System_Create with
    | (r1, system, s1) =>
        gSys (globals (final (main w))) =
          (if (r1 =? FMOD_OK)%Z then Some system else gSys (globals w)) /\
        match respond s1 (getCoreSystem system) with
        | (r2, core, _) =>
            gCore (globals (final (main w))) =
              (if ((r1 =? FMOD_OK) && (r2 =? FMOD_OK))%Z then Some core
               else gCore (globals w))
        end
    end.

Definition simple_is_tick (a : SimpleEvent.Action) : bool :=
  match a with SimpleEvent.Tick => true | _ => false end.

Definition music_is_tick (a : MusicCallbacks.Action) : bool :=
  match a with MusicCallbacks.Tick => true | _ => false end.

Definition music_is_toggle (a : MusicCallbacks.Action) : bool :=
  match a with MusicCallbacks.Toggle => true | _ => false end.

Definition part_is_tick (a : Part000.Action) : bool :=
  match a with Part000.Tick => true | _ => false end.

(** Over any sequence of handler invocations the engine is advanced at
    most once per timer tick. *)
Definition updates_at_most_once_per_tick {G Y} (is_tick : Y -> bool) (handler : Y -> M G unit)
  : Prop :=
  forall (todo : list Y) (w : World G),
    (List.length (filter is_update (calls (snd (dispatch handler todo w)))) <=
     List.length (filter is_tick todo))%nat.

(** A tick reaches [update] only on a page that has both text fields. *)
Definition update_needs_both_fields {G} (tick : M G unit) : Prop :=
  forall w : World G,
    filter is_update (calls (events (tick w))) <> [] ->
    has_element "#display_out" = true /\ has_element "#display_out2" = true.

Definition is_enable (e : Event) : bool :=
  match e with EEnable _ => true | _ => false end.

Definition is_log (e : Event) : bool :=
  match e with ELog _ _ => true | _ => false end.

Definition is_listener (e : Event) : bool :=
  match e with EAddListener _ _ _ => true | _ => false end.

(** [initApplication] enables a control only after all [n] of its engine
    calls were made and returned [FMOD.OK]. *)
Definition enables_after_loading {G} (n : nat) (initApplication : M G unit) : Prop :=
  forall w : World G,
    filter is_enable (events (initApplication w)) <> [] ->
    List.length (calls (events (initApplication w))) = n /\
    all_ok (events (initApplication w)).

End FurtherStatements.

(** * A host to run the scripts on

    Integer arithmetic stands in for the doubles, every page element
    exists, and the engine answers from a script: the result codes of the
    coming calls in order, then [FMOD.OK] for ever.  [FMOD.OK] is 0 and the
    four callback types are distinct single bits. *)

Definition integer_numbers : JSNumber :=
  {| Number := Z;
     num_of_Z := fun z => z;
     num_add := Z.add;
     num_mul := Z.mul;
     num_div := Z.div;
     num_toFixed := fun x _ => string_of_Z x;
     num_toString := string_of_Z |}.

Definition scripted_out (c : @Call integer_numbers) : @out_type integer_numbers c :=
  match c as c0 return @out_type integer_numbers c0 with
  | Studio_System_Create => Handle 1
  | getCoreSystem _ => Handle 2
  | getDriverInfo _ _ => 48000
  | loadBankFile _ _ _ => Handle 3
  | getEvent _ _ => Handle 4
  | createInstance _ => Handle 5
  | getParameterDescriptionByName _ _ => {| pd_id := {| data1 := 1; data2 := 2 |} |}
  | getCPUUsage _ =>
      @Build_CPU_USAGE integer_numbers 1 2 3
  | getChannelsPlaying _ => 0
  | getDSPBufferSize _ => (2048, 2)
  | getSoftwareFormat _ => 48000
  | getName _ => "music"
  | getLength _ _ => 1000
  | _ => tt
  end.

Definition scripted : @Host integer_numbers :=
  {| FMOD_OK := 0;
     FMOD_ErrorString := fun result => "error " ++ string_of_Z result;
     FMOD_SPEAKERMODE_DEFAULT := 0;
     FMOD_STUDIO_INIT_NORMAL := 0;
     FMOD_INIT_NORMAL := 0;
     FMOD_STUDIO_STOP_IMMEDIATE := 1;
     FMOD_STUDIO_LOAD_BANK_NORMAL := 0;
     FMOD_STUDIO_EVENT_CALLBACK_TIMELINE_MARKER := 2048;
     FMOD_STUDIO_EVENT_CALLBACK_TIMELINE_BEAT := 4096;
     FMOD_STUDIO_EVENT_CALLBACK_SOUND_PLAYED := 8192;
     FMOD_STUDIO_EVENT_CALLBACK_SOUND_STOPPED := 16384;
     FMOD_TIMEUNIT_MS := 1;
     Engine := list Z;
     respond := fun s c => (hd 0 s, scripted_out c, tl s);
     property := fun _ _ => JUndefined;
     has_element := fun _ => true;
     iOS := false |}.

(** Each script on a freshly loaded page, with the engine about to answer
    [script]. *)
Definition simple_page (script : list Z) : @World integer_numbers scripted SimpleEvent.Globals :=
  @Build_World integer_numbers scripted SimpleEvent.Globals script SimpleEvent.initial.

Definition music_page (script : list Z) : @World integer_numbers scripted MusicCallbacks.Globals :=
  @Build_World integer_numbers scripted MusicCallbacks.Globals script MusicCallbacks.initial.

Definition part_page (script : list Z) : @World integer_numbers scripted Part000.Globals :=
  @Build_World integer_numbers scripted Part000.Globals script Part000.initial.

(** The pages after [main] has run with every call answered [FMOD.OK]. *)
Definition simple_ready : @World integer_numbers scripted SimpleEvent.Globals :=
  final (SimpleEvent.main (simple_page [])).

Definition music_ready : @World integer_numbers scripted MusicCallbacks.Globals :=
  final (MusicCallbacks.main (music_page [])).

Definition part_ready : @World integer_numbers scripted Part000.Globals :=
  final (Part000.main (part_page [])).

(** The third script's page after a successful [main], on an engine that
    will answer the first [mixerSuspend] with [FMOD.OK] and the first
    [mixerResume] with error 30. *)
Definition part_ready_resume_fails_once : @World integer_numbers scripted Part000.Globals :=
  final (Part000.main (part_page [0; 0; 0; 0; 0; 0; 0; 0; 0; 0; 0; 30])).

(** * Proofs *)

(** Unfolding the monad down to pairs and matches. *)
Ltac unfold_monad :=
  unfold bind, call, alert, console_log, set_value, enable, setInterval, addEventListener,
    emit, throw, ret, gets, modify, global, deref.

(** Name the parts of the run [m w] and keep its defining equation as a
    premise, so that the computation is symbolically executed once. *)
Ltac name_run m w :=
  let Hrun := fresh "Hrun" in
  let run := fresh "run" in
  remember (m w) as run eqn:Hrun;
  destruct run as [[?o ?w'] ?evs];
  unfold outcome, final, events; cbn [fst snd];
  revert Hrun.

(** One step of symbolic execution: use a result already examined, ask the
    engine for its answer, split on the result check, or open a value the
    script looks into. *)
Ltac step :=
  match goal with
  | E : (?r =? FMOD_OK)%Z = _ |- context [(?r =? FMOD_OK)%Z] => rewrite E; cbn
  | |- context [respond ?s ?c] =>
      let r := fresh "r" in
      let o := fresh "out" in
      let s' := fresh "s" in
      destruct (respond s c) as [[r o] s'] eqn:?; cbn
  | |- context [(?r =? FMOD_OK)%Z] =>
      let E := fresh "E" in destruct (r =? FMOD_OK)%Z eqn:E; cbn
  | |- context [let (_, _) := ?o in _] => is_var o; destruct o; cbn
  | |- context [match ?x with Some _ => _ | None => _ end] => is_var x; destruct x; cbn
  | |- context [if ?b then _ else _] => is_var b; destruct b; cbn
  | |- context [negb ?b] => is_var b; destruct b; cbn
  | |- context [if iOS then _ else _] => destruct iOS; cbn
  | |- context [has_element ?x] => destruct (has_element x); cbn
  | |- context [(?a =? ?b)%Z] =>
      let E := fresh "T" in destruct (a =? b)%Z eqn:E; cbn
  end.

(** At a leaf, read the run off its equation. *)
Ltac read_run :=
  let Hrun := fresh "Hrun" in
  intros Hrun; injection Hrun as -> -> ->.

Ltac ok_results :=
  repeat match goal with
  | E : (_ =? FMOD_OK)%Z = true |- _ => apply Z.eqb_eq in E
  | E : (_ =? FMOD_OK)%Z = false |- _ => apply Z.eqb_neq in E
  end.

Section Properties.
Context {JSN : JSNumber} {H : Host}.

(** ** Generic facts about event lists and runs *)

Lemma ends_at_failure_outcome {A B} (o : Outcome A) (o' : Outcome B) (evs : list Event) :
  (forall x, o = Raised x -> o' = Raised x) ->
  ends_at_failure o evs -> ends_at_failure o' evs.
Proof.
  intros Hraise. induction evs as [|e rest IH]; cbn; [trivial|].
  destruct e; auto.
  destruct (result =? FMOD_OK)%Z; auto.
  intros [-> Ho]. split; [reflexivity | apply Hraise, Ho].
Qed.

Lemma ends_at_failure_split {A} (o : Outcome A) (pre : list Event) (c : Call)
    (result : Z) (out : OutVal) (post : list Event) :
  ends_at_failure o (pre ++ ECall c result out :: post)%list ->
  result <> FMOD_OK ->
  post = [EAlert (failure_message result)] /\ o = Raised (Thrown (failure_message result)).
Proof.
  intros Hends Hfail. induction pre as [|e pre IH]; cbn in Hends.
  - destruct (Z.eqb_spec result FMOD_OK); [contradiction | exact Hends].
  - destruct e; auto.
    destruct (result0 =? FMOD_OK)%Z; [auto|].
    destruct Hends as [Hrest _]. exfalso.
    destruct pre as [|e' pre']; cbn in Hrest; [discriminate|].
    injection Hrest as _ Hnil. destruct pre'; discriminate.
Qed.

Lemma halts_aborts {G A} (m : M G A) : halts m -> aborts_at_failure m.
Proof.
  intros Hm w pre c result out post Hevs Hfail.
  apply (@ends_at_failure_split A (outcome (m w)) pre c result out post); [|exact Hfail].
  rewrite <- Hevs. apply Hm.
Qed.

Lemma ends_at_failure_returned {A} (a : A) (evs : list Event) :
  ends_at_failure (Returned a) evs -> all_ok evs.
Proof.
  intros Hends c result out Hin.
  destruct (in_split _ _ Hin) as [pre [post ->]].
  destruct (Z.eq_dec result FMOD_OK) as [|Hfail]; [assumption|].
  destruct (ends_at_failure_split _ _ _ _ _ _ Hends Hfail) as [_ Ho]. discriminate.
Qed.

Lemma all_ok_checked (evs : list Event) : forallb result_ok evs = true -> all_ok evs.
Proof.
  intros Hchecked c result out Hin.
  rewrite forallb_forall in Hchecked.
  apply Z.eqb_eq. exact (Hchecked _ Hin).
Qed.

Lemma calls_app (e1 e2 : list Event) : calls (e1 ++ e2) = (calls e1 ++ calls e2)%list.
Proof.
  induction e1 as [|e rest IH]; cbn; [reflexivity|].
  destruct e; cbn; rewrite ?IH; reflexivity.
Qed.

(** Every event of a list in which all results are [FMOD.OK] passes the
    boolean test. *)
Lemma all_ok_forallb (evs : list Event) : all_ok evs -> forallb result_ok evs = true.
Proof.
  intros Hok. apply forallb_forall. intros e Hin.
  destruct e; try reflexivity.
  cbn. apply Z.eqb_eq. exact (Hok _ _ _ Hin).
Qed.

(** In a run whose events are known, a failed call contradicts [all_ok]. *)
Ltac no_call_failed Hok :=
  apply all_ok_forallb in Hok; cbn in Hok;
  repeat match goal with
  | E : (_ =? FMOD_OK)%Z = _ |- _ => rewrite E in Hok; cbn in Hok
  end;
  discriminate Hok.

Ltac completes_by_execution Hok :=
  unfold_monad; cbn; repeat step;
  (let Hrun := fresh "Hrun" in
   intros Hrun; injection Hrun as ? ? ?; subst;
   first [ reflexivity | no_call_failed Hok ]).

(** ** Result checking *)

Lemma simple_CHECK_RESULT_spec : returns_or_alerts_and_throws SimpleEvent.CHECK_RESULT.
Proof.
  intros result w. unfold SimpleEvent.CHECK_RESULT, bind. split.
  - intros ->. rewrite Z.eqb_refl. reflexivity.
  - intros Hfail. apply Z.eqb_neq in Hfail. rewrite Hfail. split; reflexivity.
Qed.

Lemma music_CHECK_RESULT_spec : returns_or_alerts_and_throws MusicCallbacks.CHECK_RESULT.
Proof.
  intros result w. unfold MusicCallbacks.CHECK_RESULT, bind. split.
  - intros ->. rewrite Z.eqb_refl. reflexivity.
  - intros Hfail. apply Z.eqb_neq in Hfail. rewrite Hfail. split; reflexivity.
Qed.

Lemma part_CHECK_RESULT_spec : returns_or_alerts_and_throws Part000.CHECK_RESULT.
Proof.
  intros result w. unfold Part000.CHECK_RESULT, bind. split.
  - intros ->. rewrite Z.eqb_refl. reflexivity.
  - intros Hfail. apply Z.eqb_neq in Hfail. rewrite Hfail. split; reflexivity.
Qed.

(** C1: [CHECK_RESULT], in each of the three scripts, returns with no
    effect when the result is [FMOD.OK]; for any other result it alerts the
    message built from the engine's error string and throws that same
    message, and nothing sequenced after it runs. *)
Theorem C1_check_result_returns_or_alerts_and_throws :
  returns_or_alerts_and_throws SimpleEvent.CHECK_RESULT /\
  returns_or_alerts_and_throws MusicCallbacks.CHECK_RESULT /\
  returns_or_alerts_and_throws Part000.CHECK_RESULT.
Proof.
  split; [|split].
  - exact simple_CHECK_RESULT_spec.
  - exact music_CHECK_RESULT_spec.
  - exact part_CHECK_RESULT_spec.
Qed.

(** ** Abort at the first failed call *)

Ltac halts_by_execution :=
  unfold_monad; cbn; repeat step; read_run; cbn;
  repeat match goal with
  | E : (?r =? FMOD_OK)%Z = _ |- context [(?r =? FMOD_OK)%Z] => rewrite E; cbn
  end; auto.

Lemma simple_main_halts : halts SimpleEvent.main.
Proof.
  intros [s g]. name_run (@SimpleEvent.main JSN H) (Build_World s g).
  unfold SimpleEvent.main, SimpleEvent.initApplication, SimpleEvent.loadBank,
    SimpleEvent.CHECK_RESULT.
  halts_by_execution.
Qed.

Lemma simple_initApplication_halts : halts SimpleEvent.initApplication.
Proof.
  intros [s [sys core expl amb canc]].
  name_run (@SimpleEvent.initApplication JSN H) (Build_World s (SimpleEvent.Build_Globals sys core expl amb canc)).
  unfold SimpleEvent.initApplication, SimpleEvent.loadBank, SimpleEvent.CHECK_RESULT.
  halts_by_execution.
Qed.

Lemma simple_playEvent_halts (soundid : Z) : halts (SimpleEvent.playEvent soundid).
Proof.
  intros [s [sys core expl amb canc]].
  name_run (@SimpleEvent.playEvent JSN H soundid) (Build_World s (SimpleEvent.Build_Globals sys core expl amb canc)).
  unfold SimpleEvent.playEvent, SimpleEvent.CHECK_RESULT.
  halts_by_execution.
Qed.

Lemma simple_updateApplication_halts : halts SimpleEvent.updateApplication.
Proof.
  intros [s [sys core expl amb canc]].
  name_run (@SimpleEvent.updateApplication JSN H) (Build_World s (SimpleEvent.Build_Globals sys core expl amb canc)).
  unfold SimpleEvent.updateApplication, SimpleEvent.CHECK_RESULT.
  halts_by_execution.
Qed.

Lemma music_main_halts : halts MusicCallbacks.main.
Proof.
  intros [s [sys core inst prog pid]].
  name_run (@MusicCallbacks.main JSN H) (Build_World s (MusicCallbacks.Build_Globals sys core inst prog pid)).
  unfold MusicCallbacks.main, MusicCallbacks.initApplication, MusicCallbacks.loadBank,
    MusicCallbacks.CHECK_RESULT.
  halts_by_execution.
Qed.

Lemma music_initApplication_halts : halts MusicCallbacks.initApplication.
Proof.
  intros [s [sys core inst prog pid]].
  name_run (@MusicCallbacks.initApplication JSN H) (Build_World s (MusicCallbacks.Build_Globals sys core inst prog pid)).
  unfold MusicCallbacks.initApplication, MusicCallbacks.loadBank, MusicCallbacks.CHECK_RESULT.
  halts_by_execution.
Qed.

Lemma music_updateApplication_halts : halts MusicCallbacks.updateApplication.
Proof.
  intros [s [sys core inst prog pid]].
  name_run (@MusicCallbacks.updateApplication JSN H) (Build_World s (MusicCallbacks.Build_Globals sys core inst prog pid)).
  unfold MusicCallbacks.updateApplication, MusicCallbacks.CHECK_RESULT.
  halts_by_execution.
Qed.

Lemma music_toggleProgression_halts : halts MusicCallbacks.toggleProgression.
Proof.
  intros [s [sys core inst prog pid]].
  name_run (@MusicCallbacks.toggleProgression JSN H) (Build_World s (MusicCallbacks.Build_Globals sys core inst prog pid)).
  unfold MusicCallbacks.toggleProgression, MusicCallbacks.CHECK_RESULT.
  halts_by_execution.
Qed.

Lemma music_markerCallback_halts (type : Z) (event parameters : Obj) :
  halts (MusicCallbacks.markerCallback type event parameters).
Proof.
  intros [s g].
  name_run (@MusicCallbacks.markerCallback JSN H type event parameters) (Build_World s g).
  unfold MusicCallbacks.markerCallback, MusicCallbacks.CHECK_RESULT.
  halts_by_execution.
Qed.

Lemma part_main_halts : halts Part000.main.
Proof.
  intros [s g]. name_run (@Part000.main JSN H) (Build_World s g).
  unfold Part000.main, Part000.initApplication, Part000.loadBank, Part000.CHECK_RESULT.
  halts_by_execution.
Qed.

Lemma part_initApplication_halts : halts Part000.initApplication.
Proof.
  intros [s [sys core amb resumed]].
  name_run (@Part000.initApplication JSN H) (Build_World s (Part000.Build_Globals sys core amb resumed)).
  unfold Part000.initApplication, Part000.loadBank, Part000.CHECK_RESULT.
  halts_by_execution.
Qed.

Lemma part_playEvent_halts (soundid : Z) : halts (Part000.playEvent soundid).
Proof.
  intros [s [sys core amb resumed]].
  name_run (@Part000.playEvent JSN H soundid) (Build_World s (Part000.Build_Globals sys core amb resumed)).
  unfold Part000.playEvent, Part000.CHECK_RESULT.
  halts_by_execution.
Qed.

Lemma part_updateApplication_halts : halts Part000.updateApplication.
Proof.
  intros [s [sys core amb resumed]].
  name_run (@Part000.updateApplication JSN H) (Build_World s (Part000.Build_Globals sys core amb resumed)).
  unfold Part000.updateApplication, Part000.CHECK_RESULT.
  halts_by_execution.
Qed.

Lemma part_resumeAudio_halts : halts Part000.resumeAudio.
Proof.
  intros [s [sys core amb resumed]].
  name_run (@Part000.resumeAudio JSN H) (Build_World s (Part000.Build_Globals sys core amb resumed)).
  unfold Part000.resumeAudio, Part000.CHECK_RESULT.
  halts_by_execution.
Qed.

(** C2: in every operation of the three scripts, a call that returns
    anything but [FMOD.OK] is the last engine call of the operation: only
    the alert follows it, and the operation ends with the thrown message.
    Nothing catches the exception, so there is no retry and no recovery. *)
Theorem C2_failed_call_aborts_operation :
  (aborts_at_failure SimpleEvent.main /\
   aborts_at_failure SimpleEvent.initApplication /\
   (forall soundid, aborts_at_failure (SimpleEvent.playEvent soundid)) /\
   aborts_at_failure SimpleEvent.updateApplication) /\
  (aborts_at_failure MusicCallbacks.main /\
   aborts_at_failure MusicCallbacks.initApplication /\
   aborts_at_failure MusicCallbacks.updateApplication /\
   aborts_at_failure MusicCallbacks.toggleProgression /\
   (forall type event parameters,
       aborts_at_failure (MusicCallbacks.markerCallback type event parameters))) /\
  (aborts_at_failure Part000.main /\
   aborts_at_failure Part000.initApplication /\
   (forall soundid, aborts_at_failure (Part000.playEvent soundid)) /\
   aborts_at_failure Part000.updateApplication /\
   aborts_at_failure Part000.resumeAudio).
Proof.
  repeat apply conj; intros; apply halts_aborts;
    auto using simple_main_halts, simple_initApplication_halts, simple_playEvent_halts,
      simple_updateApplication_halts, music_main_halts, music_initApplication_halts,
      music_updateApplication_halts, music_toggleProgression_halts,
      music_markerCallback_halts, part_main_halts, part_initApplication_halts,
      part_playEvent_halts, part_updateApplication_halts, part_resumeAudio_halts.
Qed.

(** ** The per-tick update *)

(** Every result in a fully known event list was examined and found OK. *)
Ltac all_ok_by_cases :=
  let c := fresh "c" in
  let r := fresh "r" in
  let v := fresh "v" in
  let Hin := fresh "Hin" in
  intros c r v Hin; cbn in Hin; ok_results;
  repeat (destruct Hin as [Hin|Hin];
          [try discriminate Hin; injection Hin as _ <- _; assumption|]);
  contradiction.

Ltac initial_segment :=
  first [ exists 0%nat; reflexivity | exists 1%nat; reflexivity
        | exists 2%nat; reflexivity | exists 3%nat; reflexivity
        | exists 4%nat; reflexivity | exists 5%nat; reflexivity
        | exists 6%nat; reflexivity ].

Ltac tick_by_execution :=
  unfold_monad; cbn; repeat step; read_run;
  (split; [initial_segment | split; [cbn; lia|]]);
  first [ discriminate
        | intros _; ok_results; subst; do 8 eexists;
          (repeat apply conj); reflexivity ].

Lemma simple_tick : polls_then_updates_once
  SimpleEvent.gSystemCore SimpleEvent.gSystem
  SimpleEvent.display_out SimpleEvent.display_out2 SimpleEvent.updateApplication.
Proof.
  intros [s [sys core expl amb canc]].
  name_run (@SimpleEvent.updateApplication JSN H)
    (Build_World s (SimpleEvent.Build_Globals sys core expl amb canc)).
  unfold SimpleEvent.updateApplication, SimpleEvent.CHECK_RESULT.
  tick_by_execution.
Qed.

Lemma music_tick : polls_then_updates_once
  MusicCallbacks.gSystemCore MusicCallbacks.gSystem
  MusicCallbacks.display_out MusicCallbacks.display_out2 MusicCallbacks.updateApplication.
Proof.
  intros [s [sys core inst prog pid]].
  name_run (@MusicCallbacks.updateApplication JSN H)
    (Build_World s (MusicCallbacks.Build_Globals sys core inst prog pid)).
  unfold MusicCallbacks.updateApplication, MusicCallbacks.CHECK_RESULT.
  tick_by_execution.
Qed.

Lemma part_tick : polls_then_updates_once
  Part000.gSystemCore Part000.gSystem
  Part000.display_out Part000.display_out2 Part000.updateApplication.
Proof.
  intros [s [sys core amb resumed]].
  name_run (@Part000.updateApplication JSN H)
    (Build_World s (Part000.Build_Globals sys core amb resumed)).
  unfold Part000.updateApplication, Part000.CHECK_RESULT.
  tick_by_execution.
Qed.

Lemma simple_tick_completes :
  tick_completes SimpleEvent.gSystemCore SimpleEvent.gSystem SimpleEvent.updateApplication.
Proof.
  intros [s [sys core expl amb canc]] c sy Hcore Hsys Hout Hout2.
  cbn in Hcore, Hsys. subst sys core.
  unfold outcome, events.
  destruct (SimpleEvent.updateApplication _) as [[o w'] evs] eqn:Hrun.
  cbn [fst snd]. intros Hok. revert Hrun.
  unfold SimpleEvent.updateApplication, SimpleEvent.CHECK_RESULT, set_value.
  rewrite Hout, Hout2.
  completes_by_execution Hok.
Qed.

Lemma music_tick_completes :
  tick_completes MusicCallbacks.gSystemCore MusicCallbacks.gSystem
    MusicCallbacks.updateApplication.
Proof.
  intros [s [sys core inst prog pid]] c sy Hcore Hsys Hout Hout2.
  cbn in Hcore, Hsys. subst sys core.
  unfold outcome, events.
  destruct (MusicCallbacks.updateApplication _) as [[o w'] evs] eqn:Hrun.
  cbn [fst snd]. intros Hok. revert Hrun.
  unfold MusicCallbacks.updateApplication, MusicCallbacks.CHECK_RESULT, set_value.
  rewrite Hout, Hout2.
  completes_by_execution Hok.
Qed.

Lemma part_tick_completes :
  tick_completes Part000.gSystemCore Part000.gSystem Part000.updateApplication.
Proof.
  intros [s [sys core amb resumed]] c sy Hcore Hsys Hout Hout2.
  cbn in Hcore, Hsys. subst sys core.
  unfold outcome, events.
  destruct (Part000.updateApplication _) as [[o w'] evs] eqn:Hrun.
  cbn [fst snd]. intros Hok. revert Hrun.
  unfold Part000.updateApplication, Part000.CHECK_RESULT, set_value.
  rewrite Hout, Hout2.
  completes_by_execution Hok.
Qed.

(** C3: in each script a tick of [updateApplication] queries CPU usage,
    channels playing, DSP buffer size, software format and driver info, in
    that order, and then calls [gSystem.update] once, as its last engine
    call.  A tick that returns made exactly these six calls, each answered
    [FMOD.OK], and wrote the two text fields from the statistics it read; a
    tick cut short made an initial segment of the six calls, so [update] is
    never called twice and never followed by another call.  And a tick
    does return, having done all this, whenever both handles are set, the
    page has the two text fields and the engine answers every call with
    [FMOD.OK]. *)
Theorem C3_tick_queries_statistics_then_updates_once :
  (polls_then_updates_once
     SimpleEvent.gSystemCore SimpleEvent.gSystem
     SimpleEvent.display_out SimpleEvent.display_out2 SimpleEvent.updateApplication /\
   tick_completes SimpleEvent.gSystemCore SimpleEvent.gSystem
     SimpleEvent.updateApplication) /\
  (polls_then_updates_once
     MusicCallbacks.gSystemCore MusicCallbacks.gSystem
     MusicCallbacks.display_out MusicCallbacks.display_out2
     MusicCallbacks.updateApplication /\
   tick_completes MusicCallbacks.gSystemCore MusicCallbacks.gSystem
     MusicCallbacks.updateApplication) /\
  (polls_then_updates_once
     Part000.gSystemCore Part000.gSystem
     Part000.display_out Part000.display_out2 Part000.updateApplication /\
   tick_completes Part000.gSystemCore Part000.gSystem Part000.updateApplication).
Proof.
  repeat apply conj.
  - exact simple_tick.
  - exact simple_tick_completes.
  - exact music_tick.
  - exact music_tick_completes.
  - exact part_tick.
  - exact part_tick_completes.
Qed.

(** C5: started on the same engine state with the same system and core
    handles, the three scripts' [updateApplication] end the same way, leave
    the engine in the same state and emit the same events: the same engine
    calls with the same results and the same two text-field writes.  The
    scripts declare different globals, so the three functions are compared
    through [observe]. *)
Theorem C5_update_functions_equivalent
    (s : Engine) (g1 : SimpleEvent.Globals) (g2 : MusicCallbacks.Globals)
    (g3 : Part000.Globals) :
  SimpleEvent.gSystem g1 = MusicCallbacks.gSystem g2 ->
  SimpleEvent.gSystemCore g1 = MusicCallbacks.gSystemCore g2 ->
  Part000.gSystem g3 = MusicCallbacks.gSystem g2 ->
  Part000.gSystemCore g3 = MusicCallbacks.gSystemCore g2 ->
  observe (SimpleEvent.updateApplication (Build_World s g1)) =
    observe (MusicCallbacks.updateApplication (Build_World s g2)) /\
  observe (Part000.updateApplication (Build_World s g3)) =
    observe (MusicCallbacks.updateApplication (Build_World s g2)).
Proof.
  destruct g1 as [sys1 core1 expl amb1 canc], g2 as [sys core inst prog pid],
    g3 as [sys3 core3 amb3 resumed].
  cbn. intros -> -> -> ->.
  unfold SimpleEvent.updateApplication, MusicCallbacks.updateApplication,
    Part000.updateApplication, SimpleEvent.CHECK_RESULT, MusicCallbacks.CHECK_RESULT,
    Part000.CHECK_RESULT, observe, outcome, final, events.
  unfold_monad; cbn.
  repeat step; split; reflexivity.
Qed.

(** ** The marker callback *)

(** C6: whatever the callback type and the object passed, [markerCallback]
    leaves every global of the script as it was, and each of its effects
    is a read-only query ([getName], [getLength]) on the object it was
    passed, a [console.log] line, or the alert of a failed check. *)
Theorem C6_marker_callback_only_queries_and_logs
    (type : Z) (event parameters : Obj) (w : World MusicCallbacks.Globals) :
  globals (final (MusicCallbacks.markerCallback type event parameters w)) = globals w /\
  Forall (callback_effect parameters)
    (events (MusicCallbacks.markerCallback type event parameters w)).
Proof.
  destruct w as [s g].
  name_run (@MusicCallbacks.markerCallback JSN H type event parameters) (Build_World s g).
  unfold MusicCallbacks.markerCallback, MusicCallbacks.CHECK_RESULT.
  unfold_monad; cbn; repeat step; read_run;
    (split; [reflexivity | repeat constructor]).
Qed.

Ltac some_call_failed Hok :=
  exfalso;
  match goal with
  | E : (?r =? FMOD_OK)%Z = false |- _ =>
      apply Z.eqb_neq in E; apply E;
      first [ apply (Hok _ _ _ (or_introl eq_refl))
            | apply (Hok _ _ _ (or_intror (or_introl eq_refl))) ]
  end.

(** C10: [markerCallback] returns [FMOD.OK] whenever every query it made
    returned [FMOD.OK]; for a callback type that is none of the four it
    tests for, it does so without any effect. *)
Theorem C10_marker_callback_returns_ok
    (type : Z) (event parameters : Obj) (w : World MusicCallbacks.Globals) :
  (all_ok (events (MusicCallbacks.markerCallback type event parameters w)) ->
   outcome (MusicCallbacks.markerCallback type event parameters w) = Returned FMOD_OK) /\
  (type <> FMOD_STUDIO_EVENT_CALLBACK_TIMELINE_MARKER ->
   type <> FMOD_STUDIO_EVENT_CALLBACK_TIMELINE_BEAT ->
   type <> FMOD_STUDIO_EVENT_CALLBACK_SOUND_PLAYED ->
   type <> FMOD_STUDIO_EVENT_CALLBACK_SOUND_STOPPED ->
   MusicCallbacks.markerCallback type event parameters w = (Returned FMOD_OK, w, [])).
Proof.
  split.
  - destruct w as [s g].
    name_run (@MusicCallbacks.markerCallback JSN H type event parameters) (Build_World s g).
    unfold MusicCallbacks.markerCallback, MusicCallbacks.CHECK_RESULT.
    unfold_monad; cbn; repeat step; read_run; intros Hok;
      first [reflexivity | some_call_failed Hok].
  - intros Hmarker Hbeat Hplayed Hstopped.
    apply Z.eqb_neq in Hmarker, Hbeat, Hplayed, Hstopped.
    unfold MusicCallbacks.markerCallback, bind, ret.
    rewrite Hmarker, Hbeat, Hplayed, Hstopped. reflexivity.
Qed.

(** ** The handle globals are never reassigned after start-up *)

Lemma frames_keeps {G X Y} (view : G -> X) (handler : Y -> M G unit) :
  (forall y, frames view (handler y)) -> keeps view handler.
Proof.
  intros Hframes todo. induction todo as [|y rest IH]; intros w; cbn; [reflexivity|].
  specialize (Hframes y w). unfold final in Hframes.
  destruct (handler y w) as [[o w1] e1]. cbn in Hframes.
  specialize (IH w1). destruct (dispatch handler rest w1) as [w2 e2]. cbn in *.
  congruence.
Qed.

Ltac frames_by_execution :=
  unfold_monad; cbn; repeat step; read_run; reflexivity.

Lemma simple_playEvent_frames (soundid : Z) :
  frames simple_handles (SimpleEvent.playEvent soundid).
Proof.
  intros [s [sys core expl amb canc]].
  name_run (@SimpleEvent.playEvent JSN H soundid)
    (Build_World s (SimpleEvent.Build_Globals sys core expl amb canc)).
  unfold SimpleEvent.playEvent, SimpleEvent.CHECK_RESULT. frames_by_execution.
Qed.

Lemma simple_updateApplication_frames :
  frames simple_handles SimpleEvent.updateApplication.
Proof.
  intros [s [sys core expl amb canc]].
  name_run (@SimpleEvent.updateApplication JSN H)
    (Build_World s (SimpleEvent.Build_Globals sys core expl amb canc)).
  unfold SimpleEvent.updateApplication, SimpleEvent.CHECK_RESULT. frames_by_execution.
Qed.

Lemma music_toggleProgression_frames :
  frames music_handles MusicCallbacks.toggleProgression.
Proof.
  intros [s [sys core inst prog pid]].
  name_run (@MusicCallbacks.toggleProgression JSN H)
    (Build_World s (MusicCallbacks.Build_Globals sys core inst prog pid)).
  unfold MusicCallbacks.toggleProgression, MusicCallbacks.CHECK_RESULT.
  frames_by_execution.
Qed.

Lemma music_updateApplication_frames :
  frames music_handles MusicCallbacks.updateApplication.
Proof.
  intros [s [sys core inst prog pid]].
  name_run (@MusicCallbacks.updateApplication JSN H)
    (Build_World s (MusicCallbacks.Build_Globals sys core inst prog pid)).
  unfold MusicCallbacks.updateApplication, MusicCallbacks.CHECK_RESULT.
  frames_by_execution.
Qed.

Lemma part_playEvent_frames (soundid : Z) :
  frames part_handles (Part000.playEvent soundid).
Proof.
  intros [s [sys core amb resumed]].
  name_run (@Part000.playEvent JSN H soundid)
    (Build_World s (Part000.Build_Globals sys core amb resumed)).
  unfold Part000.playEvent, Part000.CHECK_RESULT. frames_by_execution.
Qed.

Lemma part_updateApplication_frames :
  frames part_handles Part000.updateApplication.
Proof.
  intros [s [sys core amb resumed]].
  name_run (@Part000.updateApplication JSN H)
    (Build_World s (Part000.Build_Globals sys core amb resumed)).
  unfold Part000.updateApplication, Part000.CHECK_RESULT. frames_by_execution.
Qed.

Lemma part_resumeAudio_frames : frames part_handles Part000.resumeAudio.
Proof.
  intros [s [sys core amb resumed]].
  name_run (@Part000.resumeAudio JSN H)
    (Build_World s (Part000.Build_Globals sys core amb resumed)).
  unfold Part000.resumeAudio, Part000.CHECK_RESULT. frames_by_execution.
Qed.

(** C7: [playEvent], [toggleProgression] and [updateApplication] (and
    [resumeAudio] in the third script) leave every handle global holding
    what it held before the invocation, whether they return or throw; so
    after any sequence of button presses, touches and ticks the handle
    globals still hold the objects stored during initialization. *)
Theorem C7_handle_globals_never_reassigned :
  ((forall soundid, frames simple_handles (SimpleEvent.playEvent soundid)) /\
   frames simple_handles SimpleEvent.updateApplication /\
   keeps simple_handles SimpleEvent.handler) /\
  (frames music_handles MusicCallbacks.toggleProgression /\
   frames music_handles MusicCallbacks.updateApplication /\
   keeps music_handles MusicCallbacks.handler) /\
  ((forall soundid, frames part_handles (Part000.playEvent soundid)) /\
   frames part_handles Part000.updateApplication /\
   keeps part_handles Part000.handler).
Proof.
  repeat apply conj;
    auto using simple_playEvent_frames, simple_updateApplication_frames,
      music_toggleProgression_frames, music_updateApplication_frames,
      part_playEvent_frames, part_updateApplication_frames.
  - apply frames_keeps. intros [soundid|]; cbn;
      auto using simple_playEvent_frames, simple_updateApplication_frames.
  - apply frames_keeps. intros []; cbn;
      auto using music_toggleProgression_frames, music_updateApplication_frames.
  - apply frames_keeps. intros [soundid| |]; cbn;
      auto using part_playEvent_frames, part_updateApplication_frames,
        part_resumeAudio_frames.
Qed.

(** ** Sound ids without a branch *)

(** C8: for an integer sound id other than 0, 1, 2, 3 in simple_event.js,
    and other than 0, 1 in the third script, [playEvent] returns at once:
    no engine call, no exception, no change of state, no other effect. *)
Theorem C8_unhandled_soundid_does_nothing (soundid : Z) :
  (~ In soundid [0; 1; 2; 3] ->
   forall w : World SimpleEvent.Globals,
     SimpleEvent.playEvent soundid w = (Returned tt, w, [])) /\
  (~ In soundid [0; 1] ->
   forall w : World Part000.Globals,
     Part000.playEvent soundid w = (Returned tt, w, [])).
Proof.
  split; intros Hout w.
  - unfold SimpleEvent.playEvent.
    destruct (Z.eqb_spec soundid 0); [exfalso; apply Hout; cbn; auto|].
    destruct (Z.eqb_spec soundid 1); [exfalso; apply Hout; cbn; auto|].
    destruct (Z.eqb_spec soundid 2); [exfalso; apply Hout; cbn; auto|].
    destruct (Z.eqb_spec soundid 3); [exfalso; apply Hout; cbn; auto|].
    reflexivity.
  - unfold Part000.playEvent.
    destruct (Z.eqb_spec soundid 0); [exfalso; apply Hout; cbn; auto|].
    destruct (Z.eqb_spec soundid 1); [exfalso; apply Hout; cbn; auto|].
    reflexivity.
Qed.

(** ** The audio-resume listener *)

Lemma resumeAudio_cases (w : World Part000.Globals) :
  (Part000.gAudioResumed (globals w) = true ->
   Part000.resumeAudio w = (Returned tt, w, [])) /\
  (outcome (Part000.resumeAudio w) = Returned tt ->
   Part000.gAudioResumed (globals (final (Part000.resumeAudio w))) = true) /\
  (forall x, outcome (Part000.resumeAudio w) = Raised x ->
   Part000.gAudioResumed (globals (final (Part000.resumeAudio w))) =
     Part000.gAudioResumed (globals w) /\
   filter completes_pair (events (Part000.resumeAudio w)) = []) /\
  (List.length (filter completes_pair (events (Part000.resumeAudio w))) <= 1)%nat /\
  (Part000.gAudioResumed (globals w) = false ->
   forall core, Part000.gSystemCore (globals w) = Some core ->
   exists rest, calls (events (Part000.resumeAudio w)) = mixerSuspend core :: rest).
Proof.
  destruct w as [s [sys core amb resumed]].
  name_run (@Part000.resumeAudio JSN H)
    (Build_World s (Part000.Build_Globals sys core amb resumed)).
  unfold Part000.resumeAudio, Part000.CHECK_RESULT.
  unfold_monad; cbn; repeat step; read_run; cbn;
    repeat match goal with
    | E : (?r =? FMOD_OK)%Z = _ |- context [(?r =? FMOD_OK)%Z] => rewrite E; cbn
    end;
    repeat apply conj; intros; try discriminate; try reflexivity; try (cbn; lia);
    first [ split; reflexivity
          | match goal with
            | Hcore : Some _ = Some _ |- _ => injection Hcore as <-
            end; eexists; reflexivity ].
Qed.

Lemma touches_when_resumed (n : nat) (w : World Part000.Globals) :
  Part000.gAudioResumed (globals w) = true -> touches n w = (w, []).
Proof.
  intros Hresumed. unfold touches.
  induction n as [|n IH]; cbn [dispatch repeat Part000.handler]; [reflexivity|].
  destruct (resumeAudio_cases w) as [Hnoop _]. rewrite (Hnoop Hresumed).
  rewrite IH. reflexivity.
Qed.

Ltac alone_by_execution :=
  unfold_monad; cbn; repeat step; read_run; repeat apply conj; reflexivity.

Lemma part_playEvent_alone (soundid : Z) :
  leaves_resuming_alone (Part000.playEvent soundid).
Proof.
  intros [s [sys core amb resumed]].
  name_run (@Part000.playEvent JSN H soundid)
    (Build_World s (Part000.Build_Globals sys core amb resumed)).
  unfold Part000.playEvent, Part000.CHECK_RESULT. alone_by_execution.
Qed.

Lemma part_updateApplication_alone : leaves_resuming_alone Part000.updateApplication.
Proof.
  intros [s [sys core amb resumed]].
  name_run (@Part000.updateApplication JSN H)
    (Build_World s (Part000.Build_Globals sys core amb resumed)).
  unfold Part000.updateApplication, Part000.CHECK_RESULT. alone_by_execution.
Qed.

(** Once [gAudioResumed] is set it stays set whatever the page does next,
    every later click or touch does nothing at all, and the mixer is not
    called again. *)
Lemma resumed_for_good (todo : list Part000.Action) (w : World Part000.Globals) :
  Part000.gAudioResumed (globals w) = true ->
  Part000.gAudioResumed (globals (fst (dispatch Part000.handler todo w))) = true /\
  dispatch Part000.handler todo w =
    dispatch Part000.handler (filter part_not_touch todo) w /\
  filter completes_pair (snd (dispatch Part000.handler todo w)) = [] /\
  filter is_mixerSuspend (calls (snd (dispatch Part000.handler todo w))) = [] /\
  filter is_mixerResume (calls (snd (dispatch Part000.handler todo w))) = [].
Proof.
  revert w. induction todo as [|a todo IH]; intros w Hresumed.
  - cbn. repeat apply conj; auto.
  - assert (Hstep :
      Part000.gAudioResumed (globals (final (Part000.handler a w))) = true /\
      filter completes_pair (events (Part000.handler a w)) = [] /\
      filter is_mixerSuspend (calls (events (Part000.handler a w))) = [] /\
      filter is_mixerResume (calls (events (Part000.handler a w))) = []).
    { destruct a as [soundid| |]; cbn [Part000.handler].
      - destruct (part_playEvent_alone soundid w) as [Hflag Hquiet].
        rewrite Hflag. auto.
      - destruct (part_updateApplication_alone w) as [Hflag Hquiet].
        rewrite Hflag. auto.
      - destruct (resumeAudio_cases w) as [Hnoop _]. rewrite (Hnoop Hresumed).
        cbn. auto. }
    destruct Hstep as [Hflag [Hpair [Hsuspend Hresume]]].
    destruct a as [soundid| |];
      cbn [dispatch filter part_not_touch Part000.handler] in *.
    + unfold final, events in *.
      destruct (Part000.playEvent soundid w) as [[o w1] e1]. cbn [fst snd] in *.
      destruct (IH w1 Hflag) as [IHflag [IHsame [IHpair [IHsuspend IHresume]]]].
      rewrite <- IHsame.
      destruct (dispatch Part000.handler todo w1) as [w2 e2]. cbn [fst snd] in *.
      rewrite calls_app, !filter_app, Hpair, Hsuspend, Hresume, IHpair, IHsuspend, IHresume.
      repeat apply conj; auto.
    + unfold final, events in *.
      destruct (Part000.updateApplication w) as [[o w1] e1]. cbn [fst snd] in *.
      destruct (IH w1 Hflag) as [IHflag [IHsame [IHpair [IHsuspend IHresume]]]].
      rewrite <- IHsame.
      destruct (dispatch Part000.handler todo w1) as [w2 e2]. cbn [fst snd] in *.
      rewrite calls_app, !filter_app, Hpair, Hsuspend, Hresume, IHpair, IHsuspend, IHresume.
      repeat apply conj; auto.
    + destruct (resumeAudio_cases w) as [Hnoop _]. rewrite (Hnoop Hresumed).
      destruct (IH w Hresumed) as [IHflag [IHsame [IHpair [IHsuspend IHresume]]]].
      rewrite <- IHsame.
      destruct (dispatch Part000.handler todo w) as [w2 e2]. cbn [fst snd app] in *.
      repeat apply conj; auto.
Qed.

(** Over any sequence of presses, ticks and touches the pair runs to its
    end at most once. *)
Lemma dispatch_completes_once (todo : list Part000.Action) (w : World Part000.Globals) :
  (List.length (filter completes_pair (snd (dispatch Part000.handler todo w))) <= 1)%nat.
Proof.
  revert w. induction todo as [|a todo IH]; intros w; [cbn; lia|].
  destruct a as [soundid| |]; cbn [dispatch Part000.handler].
  - destruct (part_playEvent_alone soundid w) as [_ [Hpair _]].
    unfold events in Hpair.
    destruct (Part000.playEvent soundid w) as [[o w1] e1]. cbn [snd] in Hpair.
    specialize (IH w1). destruct (dispatch Part000.handler todo w1) as [w2 e2].
    cbn [snd] in *. rewrite filter_app, Hpair. exact IH.
  - destruct (part_updateApplication_alone w) as [_ [Hpair _]].
    unfold events in Hpair.
    destruct (Part000.updateApplication w) as [[o w1] e1]. cbn [snd] in Hpair.
    specialize (IH w1). destruct (dispatch Part000.handler todo w1) as [w2 e2].
    cbn [snd] in *. rewrite filter_app, Hpair. exact IH.
  - destruct (resumeAudio_cases w) as [_ [Hset [Hfail [Hone _]]]].
    unfold outcome, final, events in *.
    destruct (Part000.resumeAudio w) as [[o w1] e1]. cbn [fst snd] in *.
    destruct o as [[]|x].
    + destruct (resumed_for_good todo w1 (Hset eq_refl)) as [_ [_ [Hnone _]]].
      destruct (dispatch Part000.handler todo w1) as [w2 e2]. cbn [snd] in *.
      rewrite filter_app, Hnone, app_nil_r. exact Hone.
    + destruct (Hfail x eq_refl) as [_ Hnone].
      specialize (IH w1). destruct (dispatch Part000.handler todo w1) as [w2 e2].
      cbn [snd] in *. rewrite filter_app, Hnone. exact IH.
Qed.

(** C9, as the script has it: over any sequence of clicks or touches,
    with button presses and timer ticks in between, the suspend/resume
    pair runs to its end at most once.  The invocation in which both calls
    succeed sets [gAudioResumed]; from then on the flag stays set whatever
    the page does, every later click or touch makes no engine call and
    changes nothing, so the page behaves as if those touches had not
    happened, and the mixer is never suspended or resumed again.  An
    invocation in which a call fails leaves [gAudioResumed] as it was, and
    while it is false an invocation starts with [mixerSuspend] again. *)
Theorem C9_resume_pair_completes_at_most_once
    (todo : list Part000.Action) (w : World Part000.Globals) :
  (List.length (filter completes_pair (snd (dispatch Part000.handler todo w))) <= 1)%nat /\
  (forall w1 e1,
      Part000.resumeAudio w = (Returned tt, w1, e1) ->
      Part000.gAudioResumed (globals w1) = true /\
      (forall n, touches n w1 = (w1, [])) /\
      Part000.gAudioResumed (globals (fst (dispatch Part000.handler todo w1))) = true /\
      dispatch Part000.handler todo w1 =
        dispatch Part000.handler (filter part_not_touch todo) w1 /\
      filter is_mixerSuspend (calls (snd (dispatch Part000.handler todo w1))) = [] /\
      filter is_mixerResume (calls (snd (dispatch Part000.handler todo w1))) = []) /\
  (forall x,
      outcome (Part000.resumeAudio w) = Raised x ->
      Part000.gAudioResumed (globals (final (Part000.resumeAudio w))) =
        Part000.gAudioResumed (globals w)) /\
  (Part000.gAudioResumed (globals w) = false ->
   forall core, Part000.gSystemCore (globals w) = Some core ->
   exists rest, calls (events (Part000.resumeAudio w)) = mixerSuspend core :: rest).
Proof.
  split; [apply dispatch_completes_once | split; [|split]].
  - intros w1 e1 Hrun.
    destruct (resumeAudio_cases w) as [_ [Hset _]].
    rewrite Hrun in Hset. specialize (Hset eq_refl). cbn in Hset.
    destruct (resumed_for_good todo w1 Hset) as [Hflag [Hsame [_ [Hsuspend Hresume]]]].
    repeat apply conj; auto.
    intros n. apply touches_when_resumed, Hset.
  - intros x Hraised.
    destruct (resumeAudio_cases w) as [_ [_ [Hfail _]]].
    apply (Hfail x Hraised).
  - destruct (resumeAudio_cases w) as [_ [_ [_ [_ Hagain]]]]. exact Hagain.
Qed.

(** ** Start-up *)

Ltac no_timer_by_execution :=
  unfold_monad; cbn; repeat step; read_run; reflexivity.

Lemma simple_initApplication_no_timer (w : World SimpleEvent.Globals) :
  filter is_timer (events (SimpleEvent.initApplication w)) = [].
Proof.
  destruct w as [s [sys core expl amb canc]].
  name_run (@SimpleEvent.initApplication JSN H)
    (Build_World s (SimpleEvent.Build_Globals sys core expl amb canc)).
  unfold SimpleEvent.initApplication, SimpleEvent.loadBank, SimpleEvent.CHECK_RESULT.
  no_timer_by_execution.
Qed.

Lemma music_initApplication_no_timer (w : World MusicCallbacks.Globals) :
  filter is_timer (events (MusicCallbacks.initApplication w)) = [].
Proof.
  destruct w as [s [sys core inst prog pid]].
  name_run (@MusicCallbacks.initApplication JSN H)
    (Build_World s (MusicCallbacks.Build_Globals sys core inst prog pid)).
  unfold MusicCallbacks.initApplication, MusicCallbacks.loadBank,
    MusicCallbacks.CHECK_RESULT.
  no_timer_by_execution.
Qed.

Lemma part_initApplication_no_timer (w : World Part000.Globals) :
  filter is_timer (events (Part000.initApplication w)) = [].
Proof.
  destruct w as [s [sys core amb resumed]].
  name_run (@Part000.initApplication JSN H)
    (Build_World s (Part000.Build_Globals sys core amb resumed)).
  unfold Part000.initApplication, Part000.loadBank, Part000.CHECK_RESULT.
  no_timer_by_execution.
Qed.

Lemma no_timer_not_in (evs : list Event) (handler : Callback) (ms : Z) :
  filter is_timer evs = [] -> ~ In (ESetInterval handler ms) evs.
Proof.
  intros Hnone Hin.
  assert (Hf : In (ESetInterval handler ms) (filter is_timer evs))
    by (apply filter_In; split; [exact Hin | reflexivity]).
  rewrite Hnone in Hf. exact Hf.
Qed.

(** The events of [evs] that come before the sublist [stop]. *)
Ltac prefix_before stop evs :=
  lazymatch evs with
  | (stop ++ _)%list => constr:(@nil Event)
  | ?e :: ?rest => let p := prefix_before stop rest in constr:(e :: p)
  end.

Ltac not_among_known Hin :=
  cbn in Hin; repeat (destruct Hin as [Hin|Hin]; [discriminate Hin|]).

(** [main] is executed up to its call of [initApplication], which stays
    folded; [no_timer] says that [initApplication] starts no timer. *)
Ltac main_by_execution init no_timer :=
  let setup_fn := fresh "setup_fn" in
  let Hfn := fresh "Hfn" in
  remember init as setup_fn eqn:Hfn;
  unfold_monad; cbn; repeat step;
  try match goal with
  | |- context [setup_fn ?w1] =>
      let Hinit := fresh "Hinit" in
      let Hquiet := fresh "Hquiet" in
      let e2 := fresh "setup" in
      pose proof (no_timer w1) as Hquiet;
      rewrite <- Hfn in Hquiet;
      destruct (setup_fn w1) as [[[[]|?x] ?w2] e2] eqn:Hinit;
      unfold events in Hquiet; cbn [snd] in Hquiet; cbn
  end;
  rewrite Hfn in *; clear Hfn;
  repeat step;
  let Hrun := fresh "Hrun" in
  let Ho := fresh "Ho" in
  let Hw := fresh "Hw" in
  let Hevs := fresh "Hevs" in
  intros Hrun; injection Hrun as Ho Hw Hevs;
  lazymatch type of Ho with
  | _ = Raised _ =>
      subst; split;
      [ let Hin := fresh "Hin" in
        intros ? ? Hin; exfalso; not_among_known Hin;
        first [ exact Hin | eapply no_timer_not_in; eassumption ]
      | let Hr := fresh "Hr" in intros ? Hr; discriminate Hr ]
  | _ = Returned _ =>
      let rate :=
        match goal with
        | Hrate : respond _ (getDriverInfo _ _) = (_, ?rate, _) |- _ => rate
        | _ => constr:(num_of_Z 0)
        end in
      lazymatch goal with
      | Hsys : respond _ Studio_System_Create = (_, ?system, _),
        Hcore : respond _ (getCoreSystem _) = (_, ?core, _),
        Hinit : init ?w1 = (_, _, ?setup),
        Hquiet : filter is_timer ?setup = [] |- _ =>
          lazymatch type of Hevs with
          | _ = ?l =>
              let startup := prefix_before setup l in
              subst; split;
              [ intros; reflexivity
              | let Hr := fresh "Hr" in
                intros ? Hr; injection Hr as <-; split; [reflexivity|];
                exists system, core, rate, startup, w1, setup;
                repeat apply conj;
                [ reflexivity
                | reflexivity
                | all_ok_by_cases
                | exact Hinit
                | cbn; rewrite filter_app, Hquiet; reflexivity ] ]
          end
      end
  end.

Lemma simple_main_starts_timer_last :
  starts_timer_last true SimpleEvent.main SimpleEvent.initApplication [].
Proof.
  intros [s g]. name_run (@SimpleEvent.main JSN H) (Build_World s g).
  unfold SimpleEvent.main, SimpleEvent.CHECK_RESULT.
  main_by_execution (@SimpleEvent.initApplication JSN H) simple_initApplication_no_timer.
Qed.

Lemma music_main_starts_timer_last :
  starts_timer_last false MusicCallbacks.main MusicCallbacks.initApplication [].
Proof.
  intros [s g]. name_run (@MusicCallbacks.main JSN H) (Build_World s g).
  unfold MusicCallbacks.main, MusicCallbacks.CHECK_RESULT.
  main_by_execution (@MusicCallbacks.initApplication JSN H) music_initApplication_no_timer.
Qed.

Lemma part_main_starts_timer_last :
  starts_timer_last true Part000.main Part000.initApplication
    [if iOS
     then EAddListener "window" "touchend" fn_resumeAudio
     else EAddListener "document" "click" fn_resumeAudio].
Proof.
  intros [s g]. name_run (@Part000.main JSN H) (Build_World s g).
  unfold Part000.main, Part000.CHECK_RESULT.
  main_by_execution (@Part000.initApplication JSN H) part_initApplication_no_timer.
Qed.

(** The start-up calls are read off a run cut at any point. *)
Ltac in_order_by_execution init :=
  let setup_fn := fresh "setup_fn" in
  let Hfn := fresh "Hfn" in
  remember init as setup_fn eqn:Hfn;
  unfold_monad; cbn; repeat step;
  try match goal with
  | |- context [setup_fn ?w1] =>
      destruct (setup_fn w1) as [[[[]|?x] ?w2] ?e2]; cbn
  end;
  repeat step;
  (let Hrun := fresh "Hrun" in
   intros Hrun; injection Hrun as ? ? ?; subst);
  lazymatch goal with
  | Hsys : respond _ Studio_System_Create = (_, ?system, _) |- _ =>
      let core :=
        match goal with
        | Hcore : respond _ (getCoreSystem _) = (_, ?core, _) |- _ => core
        | _ => system
        end in
      let rate :=
        match goal with
        | Hrate : respond _ (getDriverInfo _ _) = (_, ?rate, _) |- _ => rate
        | _ => constr:(num_of_Z 0)
        end in
      exists system, core, rate; cbn; initial_segment
  end.

Lemma simple_main_in_order : starts_in_order true SimpleEvent.main.
Proof.
  intros [s g]. name_run (@SimpleEvent.main JSN H) (Build_World s g).
  unfold SimpleEvent.main, SimpleEvent.CHECK_RESULT.
  in_order_by_execution (@SimpleEvent.initApplication JSN H).
Qed.

Lemma music_main_in_order : starts_in_order false MusicCallbacks.main.
Proof.
  intros [s g]. name_run (@MusicCallbacks.main JSN H) (Build_World s g).
  unfold MusicCallbacks.main, MusicCallbacks.CHECK_RESULT.
  in_order_by_execution (@MusicCallbacks.initApplication JSN H).
Qed.

Lemma part_main_in_order : starts_in_order true Part000.main.
Proof.
  intros [s g]. name_run (@Part000.main JSN H) (Build_World s g).
  unfold Part000.main, Part000.CHECK_RESULT.
  in_order_by_execution (@Part000.initApplication JSN H).
Qed.

Ltac control_listed := cbn; repeat (first [left; reflexivity | right]).

Lemma simple_main_completes :
  startup_completes ["playEvent0"; "playEvent1"; "playEvent2"; "playEvent3"]
    SimpleEvent.main.
Proof.
  intros [s g] Hcontrols.
  assert (H0 : has_element "playEvent0" = true) by (apply Hcontrols; control_listed).
  assert (H1 : has_element "playEvent1" = true) by (apply Hcontrols; control_listed).
  assert (H2 : has_element "playEvent2" = true) by (apply Hcontrols; control_listed).
  assert (H3 : has_element "playEvent3" = true) by (apply Hcontrols; control_listed).
  clear Hcontrols. unfold outcome, events.
  destruct (SimpleEvent.main _) as [[o w'] evs] eqn:Hrun.
  cbn [fst snd]. intros Hok. revert Hrun.
  unfold SimpleEvent.main, SimpleEvent.initApplication, SimpleEvent.loadBank,
    SimpleEvent.CHECK_RESULT, enable.
  rewrite H0, H1, H2, H3.
  completes_by_execution Hok.
Qed.

Lemma music_main_completes : startup_completes ["toggleid"] MusicCallbacks.main.
Proof.
  intros [s g] Hcontrols.
  assert (H0 : has_element "toggleid" = true) by (apply Hcontrols; control_listed).
  clear Hcontrols. unfold outcome, events.
  destruct (MusicCallbacks.main _) as [[o w'] evs] eqn:Hrun.
  cbn [fst snd]. intros Hok. revert Hrun.
  unfold MusicCallbacks.main, MusicCallbacks.initApplication, MusicCallbacks.loadBank,
    MusicCallbacks.CHECK_RESULT, enable.
  rewrite H0.
  completes_by_execution Hok.
Qed.

Lemma part_main_completes :
  startup_completes ["playEvent0"; "playEvent1"] Part000.main.
Proof.
  intros [s g] Hcontrols.
  assert (H0 : has_element "playEvent0" = true) by (apply Hcontrols; control_listed).
  assert (H1 : has_element "playEvent1" = true) by (apply Hcontrols; control_listed).
  clear Hcontrols. unfold outcome, events.
  destruct (Part000.main _) as [[o w'] evs] eqn:Hrun.
  cbn [fst snd]. intros Hok. revert Hrun.
  unfold Part000.main, Part000.initApplication, Part000.loadBank,
    Part000.CHECK_RESULT, enable.
  rewrite H0, H1.
  completes_by_execution Hok.
Qed.

(** C4, as the scripts have it: in simple_event.js and in the third script
    [main] creates the system, obtains the core system, sets the DSP buffer
    size to 2048 samples in 2 buffers, reads the driver's rate and sets the
    mixer sample rate to it, initializes the engine and runs
    [initApplication]; the third script then registers [resumeAudio]; last,
    [main] starts the 20 ms timer.  In music_callbacks.js the sequence is
    the same without the two sample-rate calls.  For each script: a timer
    start occurs only in a run in which every call, the engine
    initialization included, returned [FMOD.OK], and a run that returns
    consists of exactly this sequence; every run, also one cut short by a
    failed call, begins with the start-up calls in this order; and [main]
    does run to its end and return [FMOD.OK] whenever the page has the
    controls [initApplication] enables and the engine answers every call
    with [FMOD.OK]. *)
Theorem C4_main_startup_sequence :
  (starts_timer_last true SimpleEvent.main SimpleEvent.initApplication [] /\
   starts_in_order true SimpleEvent.main /\
   startup_completes ["playEvent0"; "playEvent1"; "playEvent2"; "playEvent3"]
     SimpleEvent.main) /\
  (starts_timer_last false MusicCallbacks.main MusicCallbacks.initApplication [] /\
   starts_in_order false MusicCallbacks.main /\
   startup_completes ["toggleid"] MusicCallbacks.main) /\
  (starts_timer_last true Part000.main Part000.initApplication
     [if iOS
      then EAddListener "window" "touchend" fn_resumeAudio
      else EAddListener "document" "click" fn_resumeAudio] /\
   starts_in_order true Part000.main /\
   startup_completes ["playEvent0"; "playEvent1"] Part000.main).
Proof.
  repeat apply conj.
  - exact simple_main_starts_timer_last.
  - exact simple_main_in_order.
  - exact simple_main_completes.
  - exact music_main_starts_timer_last.
  - exact music_main_in_order.
  - exact music_main_completes.
  - exact part_main_starts_timer_last.
  - exact part_main_in_order.
  - exact part_main_completes.
Qed.

End Properties.

(** * Further properties of the scripts *)

Ltac segment_up_to_three :=
  first [ exists 0%nat; reflexivity | exists 1%nat; reflexivity
        | exists 2%nat; reflexivity | exists 3%nat; reflexivity ].

Section Further.
Context {JSN : JSNumber} {H : Host}.

(** ** Preloading *)

Lemma simple_prerun_returned :
  fst SimpleEvent.prerun = Returned tt -> has_element "#display_out2" = true.
Proof.
  unfold SimpleEvent.prerun. cbn. unfold pre_set_value.
  destruct (has_element "#display_out2"); [reflexivity | discriminate].
Qed.

Lemma music_prerun_returned :
  fst MusicCallbacks.prerun = Returned tt -> has_element "#display_out2" = true.
Proof.
  unfold MusicCallbacks.prerun. cbn. unfold pre_set_value.
  destruct (has_element "#display_out2"); [reflexivity | discriminate].
Qed.

Ltac loads_by_execution :=
  unfold_monad; cbn; repeat step; read_run;
  (split; [segment_up_to_three | first [discriminate | intros _; reflexivity]]).

Lemma simple_loads_what_was_mounted :
  loads_what_was_mounted SimpleEvent.prerun SimpleEvent.initApplication.
Proof.
  intros Hpre. apply simple_prerun_returned in Hpre.
  unfold SimpleEvent.prerun, mounted_paths. cbn. unfold pre_set_value. rewrite Hpre. cbn.
  intros [s [sys core expl amb canc]].
  name_run (@SimpleEvent.initApplication JSN H)
    (Build_World s (SimpleEvent.Build_Globals sys core expl amb canc)).
  unfold SimpleEvent.initApplication, SimpleEvent.loadBank, SimpleEvent.CHECK_RESULT.
  loads_by_execution.
Qed.

Lemma music_loads_what_was_mounted :
  loads_what_was_mounted MusicCallbacks.prerun MusicCallbacks.initApplication.
Proof.
  intros Hpre. apply music_prerun_returned in Hpre.
  unfold MusicCallbacks.prerun, mounted_paths. cbn. unfold pre_set_value. rewrite Hpre. cbn.
  intros [s [sys core inst prog pid]].
  name_run (@MusicCallbacks.initApplication JSN H)
    (Build_World s (MusicCallbacks.Build_Globals sys core inst prog pid)).
  unfold MusicCallbacks.initApplication, MusicCallbacks.loadBank,
    MusicCallbacks.CHECK_RESULT.
  loads_by_execution.
Qed.

Lemma part_loads_what_was_mounted :
  loads_what_was_mounted Part000.prerun Part000.initApplication.
Proof.
  intros _. unfold Part000.prerun, mounted_paths. cbn.
  intros [s [sys core amb resumed]].
  name_run (@Part000.initApplication JSN H)
    (Build_World s (Part000.Build_Globals sys core amb resumed)).
  unfold Part000.initApplication, Part000.loadBank, Part000.CHECK_RESULT.
  loads_by_execution.
Qed.

(** X1: in each script, when [prerun] returned, every bank file that
    [initApplication] asks the engine to load was mounted by [prerun]
    under the same path and in the same order; an [initApplication] that
    returns loaded all the mounted files. *)
Theorem X1_init_loads_what_prerun_mounted :
  loads_what_was_mounted SimpleEvent.prerun SimpleEvent.initApplication /\
  loads_what_was_mounted MusicCallbacks.prerun MusicCallbacks.initApplication /\
  loads_what_was_mounted Part000.prerun Part000.initApplication.
Proof.
  split; [|split].
  - exact simple_loads_what_was_mounted.
  - exact music_loads_what_was_mounted.
  - exact part_loads_what_was_mounted.
Qed.


(** ** What start-up leaves in the globals *)

Ltac stores_by_execution :=
  unfold_monad; cbn; repeat step; read_run; cbn;
  repeat match goal with
  | Hsame : (_, _, _) = (_, _, _) |- _ => injection Hsame as ? ? ?; subst
  end;
  repeat match goal with
  | E : (?r =? FMOD_OK)%Z = _ |- context [(?r =? FMOD_OK)%Z] => rewrite E; cbn
  end;
  first [ congruence | split; reflexivity ].

Lemma simple_main_stores :
  stores_system_and_core SimpleEvent.gSystem SimpleEvent.gSystemCore SimpleEvent.main.
Proof.
  intros [s [sys core expl amb canc]].
  name_run (@SimpleEvent.main JSN H)
    (Build_World s (SimpleEvent.Build_Globals sys core expl amb canc)).
  unfold SimpleEvent.main, SimpleEvent.initApplication, SimpleEvent.loadBank,
    SimpleEvent.CHECK_RESULT.
  stores_by_execution.
Qed.

Lemma music_main_stores :
  stores_system_and_core MusicCallbacks.gSystem MusicCallbacks.gSystemCore
    MusicCallbacks.main.
Proof.
  intros [s [sys core inst prog pid]].
  name_run (@MusicCallbacks.main JSN H)
    (Build_World s (MusicCallbacks.Build_Globals sys core inst prog pid)).
  unfold MusicCallbacks.main, MusicCallbacks.initApplication, MusicCallbacks.loadBank,
    MusicCallbacks.CHECK_RESULT.
  stores_by_execution.
Qed.

Lemma part_main_stores :
  stores_system_and_core Part000.gSystem Part000.gSystemCore Part000.main.
Proof.
  intros [s [sys core amb resumed]].
  name_run (@Part000.main JSN H)
    (Build_World s (Part000.Build_Globals sys core amb resumed)).
  unfold Part000.main, Part000.initApplication, Part000.loadBank, Part000.CHECK_RESULT.
  stores_by_execution.
Qed.

(** X3: in each script [main] leaves in [gSystem] the system the engine
    created, if and only if [Studio_System_Create] returned [FMOD.OK], and
    in [gSystemCore] the core system the engine returned for it, if and
    only if [getCoreSystem] also returned [FMOD.OK]; otherwise the global
    keeps what it held.  No later step of [main], failed or not, changes
    the two globals. *)
Theorem X3_main_stores_system_and_core :
  stores_system_and_core SimpleEvent.gSystem SimpleEvent.gSystemCore SimpleEvent.main /\
  stores_system_and_core MusicCallbacks.gSystem MusicCallbacks.gSystemCore
    MusicCallbacks.main /\
  stores_system_and_core Part000.gSystem Part000.gSystemCore Part000.main.
Proof.
  split; [|split].
  - exact simple_main_stores.
  - exact music_main_stores.
  - exact part_main_stores.
Qed.

(** ** A setup that returns *)

Ltac returned_by_execution :=
  unfold_monad; cbn; repeat step; read_run;
  first [ discriminate
        | intros _; ok_results; subst; repeat eexists ].

(** X4: an [initApplication] of simple_event.js that returns has loaded
    the three banks, looked up the three events, created the ambience and
    the cancel instance each from its own description, asked for the
    explosion's sample data, every call answered [FMOD.OK], and then enabled
    the four buttons; it leaves the explosion description and the two
    instances the engine stored in the three globals and the other globals
    as they were. *)
Theorem X4_simple_setup_returned (w : World SimpleEvent.Globals) :
  outcome (SimpleEvent.initApplication w) = Returned tt ->
  exists system bank1 bank2 bank3 ambienceDescription ambience cancelDescription cancel
         explosion,
    SimpleEvent.gSystem (globals w) = Some system /\
    events (SimpleEvent.initApplication w) =
      [ELog ("Loading events" ++ LF) [];
       ECall (loadBankFile system "/Master.bank" FMOD_STUDIO_LOAD_BANK_NORMAL)
         FMOD_OK (OObj bank1);
       ECall (loadBankFile system "/Master.strings.bank" FMOD_STUDIO_LOAD_BANK_NORMAL)
         FMOD_OK (OObj bank2);
       ECall (loadBankFile system "/SFX.bank" FMOD_STUDIO_LOAD_BANK_NORMAL)
         FMOD_OK (OObj bank3);
       ECall (getEvent system "event:/Ambience/Country") FMOD_OK (OObj ambienceDescription);
       ECall (createInstance ambienceDescription) FMOD_OK (OObj ambience);
       ECall (getEvent system "event:/UI/Cancel") FMOD_OK (OObj cancelDescription);
       ECall (createInstance cancelDescription) FMOD_OK (OObj cancel);
       ECall (getEvent system "event:/Weapons/Explosion") FMOD_OK (OObj explosion);
       ECall (loadSampleData explosion) FMOD_OK ONone;
       EEnable "playEvent0"; EEnable "playEvent1"; EEnable "playEvent2";
       EEnable "playEvent3"] /\
    globals (final (SimpleEvent.initApplication w)) =
      {| SimpleEvent.gSystem := Some system;
         SimpleEvent.gSystemCore := SimpleEvent.gSystemCore (globals w);
         SimpleEvent.explosionDescription := Some explosion;
         SimpleEvent.loopingAmbienceInstance := Some ambience;
         SimpleEvent.cancelInstance := Some cancel |}.
Proof.
  destruct w as [s [sys core expl amb canc]].
  name_run (@SimpleEvent.initApplication JSN H)
    (Build_World s (SimpleEvent.Build_Globals sys core expl amb canc)).
  unfold SimpleEvent.initApplication, SimpleEvent.loadBank, SimpleEvent.CHECK_RESULT.
  returned_by_execution.
Qed.

(** X5: an [initApplication] of music_callbacks.js that returns has
    loaded the three banks, looked up the music event, created its
    instance, registered [markerCallback] on that instance before starting
    it, looked up the Progression parameter on the same description and
    sent the current [gProgression] under the id found; it leaves the
    instance and the id in the globals and [gProgression] as it was. *)
Theorem X5_music_setup_returned (w : World MusicCallbacks.Globals) :
  outcome (MusicCallbacks.initApplication w) = Returned tt ->
  exists system bank1 bank2 bank3 description instance parameterDescription,
    MusicCallbacks.gSystem (globals w) = Some system /\
    events (MusicCallbacks.initApplication w) =
      [ELog ("Loading events" ++ LF) [];
       ECall (loadBankFile system "/Master.bank" FMOD_STUDIO_LOAD_BANK_NORMAL)
         FMOD_OK (OObj bank1);
       ECall (loadBankFile system "/Master.strings.bank" FMOD_STUDIO_LOAD_BANK_NORMAL)
         FMOD_OK (OObj bank2);
       ECall (loadBankFile system "/Music.bank" FMOD_STUDIO_LOAD_BANK_NORMAL)
         FMOD_OK (OObj bank3);
       ECall (getEvent system "event:/Music/Level 01") FMOD_OK (OObj description);
       ECall (createInstance description) FMOD_OK (OObj instance);
       ECall (setCallback instance fn_markerCallback MusicCallbacks.callbackmask)
         FMOD_OK ONone;
       ECall (start instance) FMOD_OK ONone;
       ECall (getParameterDescriptionByName description "Progression")
         FMOD_OK (ODesc parameterDescription);
       ECall (setParameterByID instance (Some (pd_id parameterDescription))
                (MusicCallbacks.gProgression (globals w)) false)
         FMOD_OK ONone;
       EEnable "toggleid"] /\
    globals (final (MusicCallbacks.initApplication w)) =
      {| MusicCallbacks.gSystem := Some system;
         MusicCallbacks.gSystemCore := MusicCallbacks.gSystemCore (globals w);
         MusicCallbacks.gEventInstance := Some instance;
         MusicCallbacks.gProgression := MusicCallbacks.gProgression (globals w);
         MusicCallbacks.gProgressionID := Some (pd_id parameterDescription) |}.
Proof.
  destruct w as [s [sys core inst prog pid]].
  name_run (@MusicCallbacks.initApplication JSN H)
    (Build_World s (MusicCallbacks.Build_Globals sys core inst prog pid)).
  unfold MusicCallbacks.initApplication, MusicCallbacks.loadBank,
    MusicCallbacks.CHECK_RESULT.
  returned_by_execution.
Qed.

(** X6: an [initApplication] of the third script that returns has loaded
    the two banks, looked up the music event and created its instance,
    every call answered [FMOD.OK], and then enabled the two buttons; it
    leaves the instance in [loopingAmbienceInstance] and the other globals
    as they were. *)
Theorem X6_part_setup_returned (w : World Part000.Globals) :
  outcome (Part000.initApplication w) = Returned tt ->
  exists system bank1 bank2 description instance,
    Part000.gSystem (globals w) = Some system /\
    events (Part000.initApplication w) =
      [ELog ("Loading events" ++ LF) [];
       ECall (loadBankFile system "/Master.bank" FMOD_STUDIO_LOAD_BANK_NORMAL)
         FMOD_OK (OObj bank1);
       ECall (loadBankFile system "/Master.strings.bank" FMOD_STUDIO_LOAD_BANK_NORMAL)
         FMOD_OK (OObj bank2);
       ECall (getEvent system "event:/Music") FMOD_OK (OObj description);
       ECall (createInstance description) FMOD_OK (OObj instance);
       EEnable "playEvent0"; EEnable "playEvent1"] /\
    globals (final (Part000.initApplication w)) =
      {| Part000.gSystem := Some system;
         Part000.gSystemCore := Part000.gSystemCore (globals w);
         Part000.loopingAmbienceInstance := Some instance;
         Part000.gAudioResumed := Part000.gAudioResumed (globals w) |}.
Proof.
  destruct w as [s [sys core amb resumed]].
  name_run (@Part000.initApplication JSN H)
    (Build_World s (Part000.Build_Globals sys core amb resumed)).
  unfold Part000.initApplication, Part000.loadBank, Part000.CHECK_RESULT.
  returned_by_execution.
Qed.

(** ** Presses after start-up *)

Ltac handles_by_execution :=
  unfold_monad; cbn; repeat step; read_run;
  first [ discriminate | intros _; repeat eexists ].

Lemma simple_setup_handles (w : World SimpleEvent.Globals) :
  outcome (SimpleEvent.initApplication w) = Returned tt ->
  exists explosion ambience cancel,
    SimpleEvent.explosionDescription (globals (final (SimpleEvent.initApplication w))) =
      Some explosion /\
    SimpleEvent.loopingAmbienceInstance (globals (final (SimpleEvent.initApplication w))) =
      Some ambience /\
    SimpleEvent.cancelInstance (globals (final (SimpleEvent.initApplication w))) =
      Some cancel.
Proof.
  destruct w as [s [sys core expl amb canc]].
  name_run (@SimpleEvent.initApplication JSN H)
    (Build_World s (SimpleEvent.Build_Globals sys core expl amb canc)).
  unfold SimpleEvent.initApplication, SimpleEvent.loadBank, SimpleEvent.CHECK_RESULT.
  handles_by_execution.
Qed.

Lemma music_setup_handles (w : World MusicCallbacks.Globals) :
  outcome (MusicCallbacks.initApplication w) = Returned tt ->
  exists instance,
    MusicCallbacks.gEventInstance (globals (final (MusicCallbacks.initApplication w))) =
      Some instance.
Proof.
  destruct w as [s [sys core inst prog pid]].
  name_run (@MusicCallbacks.initApplication JSN H)
    (Build_World s (MusicCallbacks.Build_Globals sys core inst prog pid)).
  unfold MusicCallbacks.initApplication, MusicCallbacks.loadBank,
    MusicCallbacks.CHECK_RESULT.
  handles_by_execution.
Qed.

Lemma part_setup_handles (w : World Part000.Globals) :
  outcome (Part000.initApplication w) = Returned tt ->
  exists instance,
    Part000.loopingAmbienceInstance (globals (final (Part000.initApplication w))) =
      Some instance.
Proof.
  destruct w as [s [sys core amb resumed]].
  name_run (@Part000.initApplication JSN H)
    (Build_World s (Part000.Build_Globals sys core amb resumed)).
  unfold Part000.initApplication, Part000.loadBank, Part000.CHECK_RESULT.
  handles_by_execution.
Qed.

Ltac no_type_error_by_execution :=
  unfold_monad; cbn; repeat step; read_run; discriminate.

Lemma simple_playEvent_defined (soundid : Z) (w : World SimpleEvent.Globals)
    (explosion ambience cancel : Obj) :
  SimpleEvent.explosionDescription (globals w) = Some explosion ->
  SimpleEvent.loopingAmbienceInstance (globals w) = Some ambience ->
  SimpleEvent.cancelInstance (globals w) = Some cancel ->
  outcome (SimpleEvent.playEvent soundid w) <> Raised TypeError.
Proof.
  destruct w as [s [sys core expl amb canc]]. cbn. intros -> -> ->.
  name_run (@SimpleEvent.playEvent JSN H soundid)
    (Build_World s
       (SimpleEvent.Build_Globals sys core (Some explosion) (Some ambience) (Some cancel))).
  unfold SimpleEvent.playEvent, SimpleEvent.CHECK_RESULT.
  no_type_error_by_execution.
Qed.

Lemma music_toggleProgression_defined (w : World MusicCallbacks.Globals) (instance : Obj) :
  MusicCallbacks.gEventInstance (globals w) = Some instance ->
  outcome (MusicCallbacks.toggleProgression w) <> Raised TypeError.
Proof.
  destruct w as [s [sys core inst prog pid]]. cbn. intros ->.
  name_run (@MusicCallbacks.toggleProgression JSN H)
    (Build_World s (MusicCallbacks.Build_Globals sys core (Some instance) prog pid)).
  unfold MusicCallbacks.toggleProgression, MusicCallbacks.CHECK_RESULT.
  no_type_error_by_execution.
Qed.

Lemma part_playEvent_defined (soundid : Z) (w : World Part000.Globals) (instance : Obj) :
  Part000.loopingAmbienceInstance (globals w) = Some instance ->
  outcome (Part000.playEvent soundid w) <> Raised TypeError.
Proof.
  destruct w as [s [sys core amb resumed]]. cbn. intros ->.
  name_run (@Part000.playEvent JSN H soundid)
    (Build_World s (Part000.Build_Globals sys core (Some instance) resumed)).
  unfold Part000.playEvent, Part000.CHECK_RESULT.
  no_type_error_by_execution.
Qed.

Lemma simple_keeps_handles : keeps simple_handles SimpleEvent.handler.
Proof.
  apply frames_keeps. intros [soundid|]; cbn;
    auto using simple_playEvent_frames, simple_updateApplication_frames.
Qed.

Lemma music_keeps_handles : keeps music_handles MusicCallbacks.handler.
Proof.
  apply frames_keeps. intros []; cbn;
    auto using music_toggleProgression_frames, music_updateApplication_frames.
Qed.

Lemma part_keeps_handles : keeps part_handles Part000.handler.
Proof.
  apply frames_keeps. intros [soundid| |]; cbn;
    auto using part_playEvent_frames, part_updateApplication_frames,
      part_resumeAudio_frames.
Qed.

(** X7: once [main] has returned, no later press raises a TypeError for a
    missing engine object: after any sequence of presses, touches and
    ticks, [playEvent] (for every sound id) and [toggleProgression] find
    the objects they call on, so they either return or throw the message of
    a failed engine call. *)
Theorem X7_presses_after_startup_find_their_objects :
  (forall (w : World SimpleEvent.Globals) r todo soundid,
      outcome (SimpleEvent.main w) = Returned r ->
      outcome (SimpleEvent.playEvent soundid
                 (fst (dispatch SimpleEvent.handler todo (final (SimpleEvent.main w))))) <>
        Raised TypeError) /\
  (forall (w : World MusicCallbacks.Globals) r todo,
      outcome (MusicCallbacks.main w) = Returned r ->
      outcome (MusicCallbacks.toggleProgression
                 (fst (dispatch MusicCallbacks.handler todo
                         (final (MusicCallbacks.main w))))) <>
        Raised TypeError) /\
  (forall (w : World Part000.Globals) r todo soundid,
      outcome (Part000.main w) = Returned r ->
      outcome (Part000.playEvent soundid
                 (fst (dispatch Part000.handler todo (final (Part000.main w))))) <>
        Raised TypeError).
Proof.
  split; [|split].
  - intros w r todo soundid Hr.
    destruct (simple_main_starts_timer_last w) as [_ Hret].
    destruct (Hret r Hr) as [_ [system [core [rate [startup [w1 [setup Hrun]]]]]]].
    destruct Hrun as [_ [_ [_ [Hinit _]]]].
    set (w0 := final (SimpleEvent.main w)) in *.
    pose proof (simple_setup_handles w1) as Hready.
    rewrite Hinit in Hready. unfold outcome, final in Hready. cbn [fst snd] in Hready.
    destruct (Hready eq_refl) as [explosion [ambience [cancel [He [Ha Hc]]]]].
    pose proof (simple_keeps_handles todo w0) as Hkept.
    unfold simple_handles in Hkept. injection Hkept as _ _ He' Ha' Hc'.
    apply (simple_playEvent_defined soundid _ explosion ambience cancel); congruence.
  - intros w r todo Hr.
    destruct (music_main_starts_timer_last w) as [_ Hret].
    destruct (Hret r Hr) as [_ [system [core [rate [startup [w1 [setup Hrun]]]]]]].
    destruct Hrun as [_ [_ [_ [Hinit _]]]].
    set (w0 := final (MusicCallbacks.main w)) in *.
    pose proof (music_setup_handles w1) as Hready.
    rewrite Hinit in Hready. unfold outcome, final in Hready. cbn [fst snd] in Hready.
    destruct (Hready eq_refl) as [instance Hi].
    pose proof (music_keeps_handles todo w0) as Hkept.
    unfold music_handles in Hkept. injection Hkept as _ _ Hi' _.
    apply (music_toggleProgression_defined _ instance); congruence.
  - intros w r todo soundid Hr.
    destruct (part_main_starts_timer_last w) as [_ Hret].
    destruct (Hret r Hr) as [_ [system [core [rate [startup [w1 [setup Hrun]]]]]]].
    destruct Hrun as [_ [_ [_ [Hinit _]]]].
    set (w0 := final (Part000.main w)) in *.
    pose proof (part_setup_handles w1) as Hready.
    rewrite Hinit in Hready. unfold outcome, final in Hready. cbn [fst snd] in Hready.
    destruct (Hready eq_refl) as [instance Hi].
    pose proof (part_keeps_handles todo w0) as Hkept.
    unfold part_handles in Hkept. injection Hkept as _ _ Hi'.
    apply (part_playEvent_defined soundid _ instance); congruence.
Qed.

(** ** What each button asks of the engine *)

Ltac same_answers :=
  repeat match goal with
  | Hsame : (_, _, _) = (_, _, _) |- _ => injection Hsame as ? ? ?; subst
  end.

(** X8: the explosion button of simple_event.js is a one-shot: the
    instance it starts and releases is the one the engine just created
    from the explosion description.  Its calls are always an initial
    segment of create, start, release, and all three when it returns; a
    failed create or start leaves the later calls unmade.  Every other
    button makes exactly one call, whatever the engine answers: start or
    stop (immediately) of the looping instance, or start of the cancel
    instance. *)
Theorem X8_buttons_call_on_stored_objects :
  (forall (w : World SimpleEvent.Globals) description,
      SimpleEvent.explosionDescription (globals w) = Some description ->
      match respond (engine w) (createInstance description) with
      | (_, instance, _) =>
          (exists n : nat,
              answers (events (SimpleEvent.playEvent 0 w)) =
                firstn n [(createInstance description, OObj instance);
                          (start instance, ONone); (release instance, ONone)]) /\
          (outcome (SimpleEvent.playEvent 0 w) = Returned tt ->
           answers (events (SimpleEvent.playEvent 0 w)) =
             [(createInstance description, OObj instance);
              (start instance, ONone); (release instance, ONone)])
      end) /\
  (forall (w : World SimpleEvent.Globals) instance,
      SimpleEvent.loopingAmbienceInstance (globals w) = Some instance ->
      calls (events (SimpleEvent.playEvent 1 w)) = [start instance] /\
      calls (events (SimpleEvent.playEvent 2 w)) =
        [stop instance FMOD_STUDIO_STOP_IMMEDIATE]) /\
  (forall (w : World SimpleEvent.Globals) instance,
      SimpleEvent.cancelInstance (globals w) = Some instance ->
      calls (events (SimpleEvent.playEvent 3 w)) = [start instance]) /\
  (forall (w : World Part000.Globals) instance,
      Part000.loopingAmbienceInstance (globals w) = Some instance ->
      calls (events (Part000.playEvent 0 w)) = [start instance] /\
      calls (events (Part000.playEvent 1 w)) =
        [stop instance FMOD_STUDIO_STOP_IMMEDIATE]).
Proof.
  repeat apply conj.
  - intros [s [sys core expl amb canc]] description. cbn. intros ->.
    name_run (@SimpleEvent.playEvent JSN H 0)
      (Build_World s (SimpleEvent.Build_Globals sys core (Some description) amb canc)).
    unfold SimpleEvent.playEvent, SimpleEvent.CHECK_RESULT.
    unfold_monad; cbn; repeat step; read_run; same_answers;
      (split; [segment_up_to_three | first [discriminate | intros _; reflexivity]]).
  - intros [s [sys core expl amb canc]] instance. cbn. intros ->.
    unfold SimpleEvent.playEvent, SimpleEvent.CHECK_RESULT, events.
    unfold_monad; cbn; repeat step; split; reflexivity.
  - intros [s [sys core expl amb canc]] instance. cbn. intros ->.
    unfold SimpleEvent.playEvent, SimpleEvent.CHECK_RESULT, events.
    unfold_monad; cbn; repeat step; reflexivity.
  - intros [s [sys core amb resumed]] instance. cbn. intros ->.
    unfold Part000.playEvent, Part000.CHECK_RESULT, events.
    unfold_monad; cbn; repeat step; split; reflexivity.
Qed.

(** ** The progression toggle *)

Lemma toggleProgression_flips (w : World MusicCallbacks.Globals) :
  MusicCallbacks.gProgression (globals (final (MusicCallbacks.toggleProgression w))) =
    (if (MusicCallbacks.gProgression (globals w) =? 0)%Z then 1 else 0).
Proof.
  destruct w as [s [sys core inst prog pid]].
  name_run (@MusicCallbacks.toggleProgression JSN H)
    (Build_World s (MusicCallbacks.Build_Globals sys core inst prog pid)).
  unfold MusicCallbacks.toggleProgression, MusicCallbacks.CHECK_RESULT.
  unfold_monad; cbn; repeat step; read_run; reflexivity.
Qed.

(** X10: [toggleProgression] assigns [gProgression] before it calls the
    engine, so the global is flipped (to 1 from 0, to 0 from anything else)
    however the invocation ends: also when the engine rejects the new value
    and when there is no event instance yet.  The one call it makes sends
    the new value under [gProgressionID] to [gEventInstance], and the log
    line is written only when that call returned [FMOD.OK]. *)
Theorem X10_toggle_flips_before_calling (w : World MusicCallbacks.Globals) :
  let flipped := if (MusicCallbacks.gProgression (globals w) =? 0)%Z then 1 else 0 in
  MusicCallbacks.gProgression (globals (final (MusicCallbacks.toggleProgression w))) =
    flipped /\
  (forall instance,
      MusicCallbacks.gEventInstance (globals w) = Some instance ->
      calls (events (MusicCallbacks.toggleProgression w)) =
        [setParameterByID instance (MusicCallbacks.gProgressionID (globals w))
           flipped false] /\
      (outcome (MusicCallbacks.toggleProgression w) = Returned tt <->
       In (ELog ("------------- TOGGLED PROGRESSION TO " ++ string_of_Z flipped) [])
          (events (MusicCallbacks.toggleProgression w)))) /\
  (MusicCallbacks.gEventInstance (globals w) = None ->
   outcome (MusicCallbacks.toggleProgression w) = Raised TypeError /\
   events (MusicCallbacks.toggleProgression w) = []).
Proof.
  cbn zeta. split; [apply toggleProgression_flips | split].
  - destruct w as [s [sys core inst prog pid]]. intros instance. cbn. intros ->.
    name_run (@MusicCallbacks.toggleProgression JSN H)
      (Build_World s (MusicCallbacks.Build_Globals sys core (Some instance) prog pid)).
    unfold MusicCallbacks.toggleProgression, MusicCallbacks.CHECK_RESULT.
    unfold_monad; cbn; repeat step; read_run;
      (split; [reflexivity | split; intros Hx]);
      first [ discriminate Hx
            | reflexivity
            | solve [cbn; auto]
            | exfalso; cbn in Hx;
              repeat (destruct Hx as [Hx|Hx]; [discriminate Hx|]); exact Hx ].
  - destruct w as [s [sys core inst prog pid]]. cbn. intros ->.
    unfold MusicCallbacks.toggleProgression, outcome, events.
    unfold_monad; cbn. split; reflexivity.
Qed.

Lemma music_updateApplication_keeps_progression :
  frames MusicCallbacks.gProgression MusicCallbacks.updateApplication.
Proof.
  intros [s [sys core inst prog pid]].
  name_run (@MusicCallbacks.updateApplication JSN H)
    (Build_World s (MusicCallbacks.Build_Globals sys core inst prog pid)).
  unfold MusicCallbacks.updateApplication, MusicCallbacks.CHECK_RESULT.
  unfold_monad; cbn; repeat step; read_run; reflexivity.
Qed.

(** X11: after any sequence of toggles and ticks from a state in which
    [gProgression] is 0 or 1, [gProgression] is its starting value plus
    the number of toggle presses, modulo 2: ticks never change it and
    every press flips it, failed or not. *)
Theorem X11_progression_counts_toggles
    (todo : list MusicCallbacks.Action) (w : World MusicCallbacks.Globals) :
  MusicCallbacks.gProgression (globals w) = 0 \/
  MusicCallbacks.gProgression (globals w) = 1 ->
  MusicCallbacks.gProgression (globals (fst (dispatch MusicCallbacks.handler todo w))) =
    (MusicCallbacks.gProgression (globals w) +
     Z.of_nat (List.length (filter music_is_toggle todo))) mod 2.
Proof.
  revert w. induction todo as [|a todo IH]; intros w Hbit.
  - cbn. destruct Hbit as [-> | ->]; reflexivity.
  - cbn [dispatch].
    assert (Hstep :
      MusicCallbacks.gProgression (globals (final (MusicCallbacks.handler a w))) =
        (MusicCallbacks.gProgression (globals w) +
         (if music_is_toggle a then 1 else 0)) mod 2).
    { destruct a; cbn [MusicCallbacks.handler music_is_toggle].
      - rewrite toggleProgression_flips. destruct Hbit as [-> | ->]; reflexivity.
      - rewrite music_updateApplication_keeps_progression.
        destruct Hbit as [-> | ->]; reflexivity. }
    unfold final in Hstep.
    destruct (MusicCallbacks.handler a w) as [[o w1] e1]. cbn [fst snd] in Hstep.
    assert (Hbit1 : MusicCallbacks.gProgression (globals w1) = 0 \/
                    MusicCallbacks.gProgression (globals w1) = 1).
    { rewrite Hstep.
      assert (0 <= (MusicCallbacks.gProgression (globals w) +
                    (if music_is_toggle a then 1 else 0)) mod 2 < 2)
        by (apply Z.mod_pos_bound; lia).
      lia. }
    specialize (IH w1 Hbit1).
    destruct (dispatch MusicCallbacks.handler todo w1) as [w2 e2]. cbn [fst] in *.
    rewrite IH, Hstep. cbn [filter].
    destruct (music_is_toggle a); cbn [List.length].
    + rewrite Zplus_mod_idemp_l. f_equal. lia.
    + rewrite Zplus_mod_idemp_l. f_equal. lia.
Qed.

(** ** Advancing the engine *)

Lemma dispatch_updates {G Y} (is_tick : Y -> bool) (handler : Y -> M G unit) :
  (forall y w,
      (List.length (filter is_update (calls (events (handler y w)))) <=
       (if is_tick y then 1 else 0))%nat) ->
  updates_at_most_once_per_tick is_tick handler.
Proof.
  intros Hone todo. induction todo as [|y rest IH]; intros w; cbn [dispatch filter].
  - cbn. lia.
  - specialize (Hone y w). unfold events in Hone.
    destruct (handler y w) as [[o w1] e1]. cbn [snd] in Hone.
    specialize (IH w1). destruct (dispatch handler rest w1) as [w2 e2]. cbn [snd] in *.
    rewrite calls_app, filter_app, length_app.
    destruct (is_tick y); cbn [List.length]; lia.
Qed.

Ltac no_update_by_execution :=
  unfold_monad; cbn; repeat step; read_run; cbn; lia.

Lemma simple_playEvent_no_update (soundid : Z) (w : World SimpleEvent.Globals) :
  (List.length (filter is_update (calls (events (SimpleEvent.playEvent soundid w)))) <= 0)%nat.
Proof.
  destruct w as [s [sys core expl amb canc]].
  name_run (@SimpleEvent.playEvent JSN H soundid)
    (Build_World s (SimpleEvent.Build_Globals sys core expl amb canc)).
  unfold SimpleEvent.playEvent, SimpleEvent.CHECK_RESULT. no_update_by_execution.
Qed.

Lemma music_toggleProgression_no_update (w : World MusicCallbacks.Globals) :
  (List.length (filter is_update (calls (events (MusicCallbacks.toggleProgression w)))) <= 0)%nat.
Proof.
  destruct w as [s [sys core inst prog pid]].
  name_run (@MusicCallbacks.toggleProgression JSN H)
    (Build_World s (MusicCallbacks.Build_Globals sys core inst prog pid)).
  unfold MusicCallbacks.toggleProgression, MusicCallbacks.CHECK_RESULT.
  no_update_by_execution.
Qed.

Lemma part_playEvent_no_update (soundid : Z) (w : World Part000.Globals) :
  (List.length (filter is_update (calls (events (Part000.playEvent soundid w)))) <= 0)%nat.
Proof.
  destruct w as [s [sys core amb resumed]].
  name_run (@Part000.playEvent JSN H soundid)
    (Build_World s (Part000.Build_Globals sys core amb resumed)).
  unfold Part000.playEvent, Part000.CHECK_RESULT. no_update_by_execution.
Qed.

Lemma part_resumeAudio_no_update (w : World Part000.Globals) :
  (List.length (filter is_update (calls (events (Part000.resumeAudio w)))) <= 0)%nat.
Proof.
  destruct w as [s [sys core amb resumed]].
  name_run (@Part000.resumeAudio JSN H)
    (Build_World s (Part000.Build_Globals sys core amb resumed)).
  unfold Part000.resumeAudio, Part000.CHECK_RESULT. no_update_by_execution.
Qed.

(** X12: over any sequence of presses, touches and ticks the engine is
    advanced at most once per tick: the number of [update] calls never
    exceeds the number of timer ticks, because a tick calls [update] at
    most once and no button or touch handler calls it at all. *)
Theorem X12_update_at_most_once_per_tick :
  updates_at_most_once_per_tick simple_is_tick SimpleEvent.handler /\
  updates_at_most_once_per_tick music_is_tick MusicCallbacks.handler /\
  updates_at_most_once_per_tick part_is_tick Part000.handler.
Proof.
  split; [|split]; apply dispatch_updates.
  - intros [soundid|] w; cbn [SimpleEvent.handler simple_is_tick].
    + apply simple_playEvent_no_update.
    + apply (simple_tick w).
  - intros [] w; cbn [MusicCallbacks.handler music_is_tick].
    + apply music_toggleProgression_no_update.
    + apply (music_tick w).
  - intros [soundid| |] w; cbn [Part000.handler part_is_tick].
    + apply part_playEvent_no_update.
    + apply (part_tick w).
    + apply part_resumeAudio_no_update.
Qed.

Ltac needs_fields_by_execution :=
  unfold_monad; cbn; repeat step; read_run; cbn;
  let Hsome := fresh "Hsome" in
  intros Hsome;
  first [ exfalso; apply Hsome; reflexivity | split; reflexivity ].

Lemma simple_update_needs_fields : update_needs_both_fields SimpleEvent.updateApplication.
Proof.
  intros [s [sys core expl amb canc]].
  name_run (@SimpleEvent.updateApplication JSN H)
    (Build_World s (SimpleEvent.Build_Globals sys core expl amb canc)).
  unfold SimpleEvent.updateApplication, SimpleEvent.CHECK_RESULT.
  needs_fields_by_execution.
Qed.

Lemma music_update_needs_fields : update_needs_both_fields MusicCallbacks.updateApplication.
Proof.
  intros [s [sys core inst prog pid]].
  name_run (@MusicCallbacks.updateApplication JSN H)
    (Build_World s (MusicCallbacks.Build_Globals sys core inst prog pid)).
  unfold MusicCallbacks.updateApplication, MusicCallbacks.CHECK_RESULT.
  needs_fields_by_execution.
Qed.

Lemma part_update_needs_fields : update_needs_both_fields Part000.updateApplication.
Proof.
  intros [s [sys core amb resumed]].
  name_run (@Part000.updateApplication JSN H)
    (Build_World s (Part000.Build_Globals sys core amb resumed)).
  unfold Part000.updateApplication, Part000.CHECK_RESULT.
  needs_fields_by_execution.
Qed.

(** X13: in each script a tick writes the two text fields before it
    calls [gSystem.update], so on a page that lacks [#display_out] or
    [#display_out2] the tick ends in a TypeError first and the engine is
    never advanced: a tick that calls [update] ran on a page with both. *)
Theorem X13_update_needs_both_text_fields :
  update_needs_both_fields SimpleEvent.updateApplication /\
  update_needs_both_fields MusicCallbacks.updateApplication /\
  update_needs_both_fields Part000.updateApplication.
Proof.
  split; [|split].
  - exact simple_update_needs_fields.
  - exact music_update_needs_fields.
  - exact part_update_needs_fields.
Qed.

(** ** Enabling the controls *)

Ltac every_result_ok :=
  let c := fresh "c" in
  let r := fresh "r" in
  let v := fresh "v" in
  let Hin := fresh "Hin" in
  intros c r v Hin; cbn in Hin; ok_results;
  repeat (destruct Hin as [Hin|Hin];
          [try discriminate Hin; injection Hin as _ <- _; assumption|]);
  contradiction.

Ltac enables_by_execution :=
  unfold_monad; cbn; repeat step; read_run; cbn;
  let Hsome := fresh "Hsome" in
  intros Hsome;
  first [ exfalso; apply Hsome; reflexivity
        | split; [reflexivity | every_result_ok] ].

Lemma simple_enables_after_loading : enables_after_loading 9 SimpleEvent.initApplication.
Proof.
  intros [s [sys core expl amb canc]].
  name_run (@SimpleEvent.initApplication JSN H)
    (Build_World s (SimpleEvent.Build_Globals sys core expl amb canc)).
  unfold SimpleEvent.initApplication, SimpleEvent.loadBank, SimpleEvent.CHECK_RESULT.
  enables_by_execution.
Qed.

Lemma music_enables_after_loading : enables_after_loading 9 MusicCallbacks.initApplication.
Proof.
  intros [s [sys core inst prog pid]].
  name_run (@MusicCallbacks.initApplication JSN H)
    (Build_World s (MusicCallbacks.Build_Globals sys core inst prog pid)).
  unfold MusicCallbacks.initApplication, MusicCallbacks.loadBank,
    MusicCallbacks.CHECK_RESULT.
  enables_by_execution.
Qed.

Lemma part_enables_after_loading : enables_after_loading 4 Part000.initApplication.
Proof.
  intros [s [sys core amb resumed]].
  name_run (@Part000.initApplication JSN H)
    (Build_World s (Part000.Build_Globals sys core amb resumed)).
  unfold Part000.initApplication, Part000.loadBank, Part000.CHECK_RESULT.
  enables_by_execution.
Qed.

(** X14: [initApplication] enables a button only once loading is
    finished: in a run that enabled any control, every engine call of the
    setup (nine in simple_event.js and music_callbacks.js, four in the
    third script) had been made and had returned [FMOD.OK]. *)
Theorem X14_controls_enabled_only_after_loading :
  enables_after_loading 9 SimpleEvent.initApplication /\
  enables_after_loading 9 MusicCallbacks.initApplication /\
  enables_after_loading 4 Part000.initApplication.
Proof.
  split; [|split].
  - exact simple_enables_after_loading.
  - exact music_enables_after_loading.
  - exact part_enables_after_loading.
Qed.

(** X15: [markerCallback] tests the callback type in the order marker,
    beat, sound: for a marker it logs the marker's name and for a beat the
    beat's five properties, with no engine call; for a sound played or
    stopped it asks the sound passed for its name and for its length in
    milliseconds and, when both queries return [FMOD.OK], logs the name, the
    length divided by 1000 and Started or Stopped.  It never logs more than
    one line and never makes more than two calls. *)
Theorem X15_marker_callback_reports
    (type : Z) (event parameters : Obj) (w : World MusicCallbacks.Globals) :
  ((List.length (filter is_log
                   (events (MusicCallbacks.markerCallback type event parameters w))) <= 1)%nat /\
   (List.length (calls (events (MusicCallbacks.markerCallback type event parameters w)))
    <= 2)%nat) /\
  (type = FMOD_STUDIO_EVENT_CALLBACK_TIMELINE_MARKER ->
   MusicCallbacks.markerCallback type event parameters w =
     (Returned FMOD_OK, w, [ELog "Named marker '%s'" [property parameters "name"]])) /\
  (type <> FMOD_STUDIO_EVENT_CALLBACK_TIMELINE_MARKER ->
   type = FMOD_STUDIO_EVENT_CALLBACK_TIMELINE_BEAT ->
   MusicCallbacks.markerCallback type event parameters w =
     (Returned FMOD_OK, w,
      [ELog "beat %d, bar %d (tempo %.1f %d:%d)"
         [property parameters "beat"; property parameters "bar";
          property parameters "tempo"; property parameters "timesignatureupper";
          property parameters "timesignaturelower"]])) /\
  (type <> FMOD_STUDIO_EVENT_CALLBACK_TIMELINE_MARKER ->
   type <> FMOD_STUDIO_EVENT_CALLBACK_TIMELINE_BEAT ->
   type = FMOD_STUDIO_EVENT_CALLBACK_SOUND_PLAYED \/
   type = FMOD_STUDIO_EVENT_CALLBACK_SOUND_STOPPED ->
   outcome (MusicCallbacks.markerCallback type event parameters w) = Returned FMOD_OK ->
   exists name len,
     events (MusicCallbacks.markerCallback type event parameters w) =
       [ECall (getName parameters) FMOD_OK (OStr name);
        ECall (getLength parameters FMOD_TIMEUNIT_MS) FMOD_OK (ONum len);
        ELog "Sound '%s' (length %.3f) %s"
          [JStr name; JNum (num_div len (num_of_Z 1000));
           JStr (if (type =? FMOD_STUDIO_EVENT_CALLBACK_SOUND_PLAYED)%Z
                 then "Started" else "Stopped")]]).
Proof.
  repeat apply conj.
  - destruct w as [s g].
    name_run (@MusicCallbacks.markerCallback JSN H type event parameters) (Build_World s g).
    unfold MusicCallbacks.markerCallback, MusicCallbacks.CHECK_RESULT.
    unfold_monad; cbn; repeat step; read_run; cbn; lia.
  - destruct w as [s g].
    name_run (@MusicCallbacks.markerCallback JSN H type event parameters) (Build_World s g).
    unfold MusicCallbacks.markerCallback, MusicCallbacks.CHECK_RESULT.
    unfold_monad; cbn; repeat step; read_run; cbn; lia.
  - intros ->. unfold MusicCallbacks.markerCallback. unfold_monad.
    rewrite Z.eqb_refl. destruct w. reflexivity.
  - intros Hmarker ->. apply Z.eqb_neq in Hmarker.
    unfold MusicCallbacks.markerCallback. unfold_monad.
    rewrite Hmarker, Z.eqb_refl. destruct w. reflexivity.
  - intros Hmarker Hbeat Hsound. apply Z.eqb_neq in Hmarker, Hbeat.
    assert (Htest :
      ((type =? FMOD_STUDIO_EVENT_CALLBACK_SOUND_PLAYED)
       || (type =? FMOD_STUDIO_EVENT_CALLBACK_SOUND_STOPPED))%Z = true).
    { destruct Hsound as [-> | ->]; rewrite Z.eqb_refl;
        [reflexivity | apply orb_true_r]. }
    destruct w as [s g].
    name_run (@MusicCallbacks.markerCallback JSN H type event parameters) (Build_World s g).
    unfold MusicCallbacks.markerCallback, MusicCallbacks.CHECK_RESULT.
    rewrite Hmarker, Hbeat, Htest.
    unfold_monad; cbn; repeat step; read_run;
      first [ discriminate | intros _; ok_results; subst; repeat eexists ].
Qed.

(** ** The resume listener *)

(** X9: [main] of the third script registers [resumeAudio] exactly once
    and only in a run that returns, after engine start-up and application
    setup succeeded: for touch-end on the window on iOS, for click on the
    document elsewhere.  A [main] that throws has registered nothing. *)
Theorem X9_listener_registered_only_after_startup (w : World Part000.Globals) :
  filter is_listener (events (Part000.main w)) =
    match outcome (Part000.main w) with
    | Returned _ =>
        [if iOS
         then EAddListener "window" "touchend" fn_resumeAudio
         else EAddListener "document" "click" fn_resumeAudio]
    | Raised _ => []
    end.
Proof.
  destruct w as [s g].
  name_run (@Part000.main JSN H) (Build_World s g).
  unfold Part000.main, Part000.initApplication, Part000.loadBank, Part000.CHECK_RESULT.
  unfold_monad; cbn; repeat step;
    (let Hrun := fresh "Hrun" in
     intros Hrun; first [discriminate Hrun | injection Hrun as ? ? ?; subst; reflexivity]).
Qed.

End Further.

(** * The statements at work on the scripted host *)

#[local] Existing Instance integer_numbers.
#[local] Existing Instance scripted.

(** [CHECK_RESULT] on result 0 and on result 30. *)
Lemma C1_check_result_example :
  SimpleEvent.CHECK_RESULT 0 (simple_page []) = (Returned tt, simple_page [], []) /\
  SimpleEvent.CHECK_RESULT 30 (simple_page []) =
    (Raised (Thrown "Error!!! 'error 30'"), simple_page [], [EAlert "Error!!! 'error 30'"]).
Proof.
  destruct (@C1_check_result_returns_or_alerts_and_throws integer_numbers scripted)
    as [Hsimple _].
  split.
  - apply (proj1 (Hsimple 0 (simple_page []))). vm_compute. reflexivity.
  - apply (proj2 (Hsimple 30 (simple_page []))). discriminate.
Defined.

(** [main] of simple_event.js when [setSoftwareFormat], its fifth call,
    fails with error 30: the alert is the last event and [main] throws. *)
Lemma C2_main_aborts_example :
  skipn 9 (events (SimpleEvent.main (simple_page [0; 0; 0; 0; 30]))) =
    [EAlert "Error!!! 'error 30'"] /\
  outcome (SimpleEvent.main (simple_page [0; 0; 0; 0; 30])) =
    Raised (Thrown "Error!!! 'error 30'").
Proof.
  destruct (@C2_failed_call_aborts_operation integer_numbers scripted)
    as [[Hmain _] _].
  apply (Hmain (simple_page [0; 0; 0; 0; 30])
           (firstn 8 (events (SimpleEvent.main (simple_page [0; 0; 0; 0; 30]))))
           (@setSoftwareFormat integer_numbers (Handle 2) 48000 0 0) 30 ONone).
  - vm_compute. reflexivity.
  - discriminate.
Defined.

(** A tick of each script on the page its [main] left, all calls answered
    [FMOD.OK]: the tick returns, having made the six calls. *)
Lemma C3_tick_example :
  (outcome (SimpleEvent.updateApplication simple_ready) = Returned tt /\
   calls (events (SimpleEvent.updateApplication simple_ready)) =
     [getCPUUsage (Handle 2); getChannelsPlaying (Handle 2); getDSPBufferSize (Handle 2);
      getSoftwareFormat (Handle 2); getDriverInfo (Handle 2) 0; update (Handle 1)]) /\
  (outcome (MusicCallbacks.updateApplication music_ready) = Returned tt /\
   calls (events (MusicCallbacks.updateApplication music_ready)) =
     [getCPUUsage (Handle 2); getChannelsPlaying (Handle 2); getDSPBufferSize (Handle 2);
      getSoftwareFormat (Handle 2); getDriverInfo (Handle 2) 0; update (Handle 1)]) /\
  (outcome (Part000.updateApplication part_ready) = Returned tt /\
   calls (events (Part000.updateApplication part_ready)) =
     [getCPUUsage (Handle 2); getChannelsPlaying (Handle 2); getDSPBufferSize (Handle 2);
      getSoftwareFormat (Handle 2); getDriverInfo (Handle 2) 0; update (Handle 1)]).
Proof.
  destruct (@C3_tick_queries_statistics_then_updates_once integer_numbers scripted)
    as [[Hsimple Hsimple_runs] [[Hmusic Hmusic_runs] [Hpart Hpart_runs]]].
  split; [|split].
  - assert (Hok : outcome (SimpleEvent.updateApplication simple_ready) = Returned tt).
    { apply (Hsimple_runs simple_ready (Handle 2) (Handle 1));
        try (vm_compute; reflexivity).
      apply all_ok_checked. vm_compute. reflexivity. }
    split; [exact Hok|].
    destruct (proj2 (proj2 (Hsimple simple_ready)) Hok)
      as [core [system [cpu [channelsplaying [buffersize [numbuffers [rate [sysrate
         [Hcore [Hsystem Hevents]]]]]]]]]].
    rewrite Hevents. cbn [calls].
    assert (Hc : core = Handle 2) by (vm_compute in Hcore; congruence).
    assert (Hs : system = Handle 1) by (vm_compute in Hsystem; congruence).
    rewrite Hc, Hs. reflexivity.
  - assert (Hok : outcome (MusicCallbacks.updateApplication music_ready) = Returned tt).
    { apply (Hmusic_runs music_ready (Handle 2) (Handle 1));
        try (vm_compute; reflexivity).
      apply all_ok_checked. vm_compute. reflexivity. }
    split; [exact Hok|].
    destruct (proj2 (proj2 (Hmusic music_ready)) Hok)
      as [core [system [cpu [channelsplaying [buffersize [numbuffers [rate [sysrate
         [Hcore [Hsystem Hevents]]]]]]]]]].
    rewrite Hevents. cbn [calls].
    assert (Hc : core = Handle 2) by (vm_compute in Hcore; congruence).
    assert (Hs : system = Handle 1) by (vm_compute in Hsystem; congruence).
    rewrite Hc, Hs. reflexivity.
  - assert (Hok : outcome (Part000.updateApplication part_ready) = Returned tt).
    { apply (Hpart_runs part_ready (Handle 2) (Handle 1));
        try (vm_compute; reflexivity).
      apply all_ok_checked. vm_compute. reflexivity. }
    split; [exact Hok|].
    destruct (proj2 (proj2 (Hpart part_ready)) Hok)
      as [core [system [cpu [channelsplaying [buffersize [numbuffers [rate [sysrate
         [Hcore [Hsystem Hevents]]]]]]]]]].
    rewrite Hevents. cbn [calls].
    assert (Hc : core = Handle 2) by (vm_compute in Hcore; congruence).
    assert (Hs : system = Handle 1) by (vm_compute in Hsystem; congruence).
    rewrite Hc, Hs. reflexivity.
Defined.

(** [main] of each script on a page that has every control, with every
    call answered [FMOD.OK]: it returns [FMOD.OK], and its events are the
    start-up calls, application setup, and last the timer start. *)
Lemma C4_main_example :
  (outcome (SimpleEvent.main (simple_page [])) = Returned 0 /\
   exists system core rate startup setup,
     events (SimpleEvent.main (simple_page [])) =
       (startup ++ setup ++
        [ELog ("Start game loop" ++ LF) []; ESetInterval fn_updateApplication 20])%list /\
     answers startup = startup_answers true system core rate) /\
  (outcome (MusicCallbacks.main (music_page [])) = Returned 0 /\
   exists system core rate startup setup,
     events (MusicCallbacks.main (music_page [])) =
       (startup ++ setup ++
        [ELog ("Start game loop" ++ LF) []; ESetInterval fn_updateApplication 20])%list /\
     answers startup = startup_answers false system core rate) /\
  (outcome (Part000.main (part_page [])) = Returned 0 /\
   exists system core rate startup setup,
     events (Part000.main (part_page [])) =
       (startup ++ setup ++
        [EAddListener "document" "click" fn_resumeAudio;
         ELog ("Start game loop" ++ LF) []; ESetInterval fn_updateApplication 20])%list /\
     answers startup = startup_answers true system core rate).
Proof.
  destruct (@C4_main_startup_sequence integer_numbers scripted)
    as [[Hsimple [_ Hsimple_runs]] [[Hmusic [_ Hmusic_runs]] [Hpart [_ Hpart_runs]]]].
  split; [|split].
  - assert (Hok : outcome (SimpleEvent.main (simple_page [])) = Returned 0).
    { apply (Hsimple_runs (simple_page [])).
      - intros control _. reflexivity.
      - apply all_ok_checked. vm_compute. reflexivity. }
    split; [exact Hok|].
    destruct (proj2 (Hsimple (simple_page [])) 0 Hok)
      as [_ [system [core [rate [startup [w1 [setup [Hevs [Hanswers _]]]]]]]]].
    exists system, core, rate, startup, setup. split; [exact Hevs | exact Hanswers].
  - assert (Hok : outcome (MusicCallbacks.main (music_page [])) = Returned 0).
    { apply (Hmusic_runs (music_page [])).
      - intros control _. reflexivity.
      - apply all_ok_checked. vm_compute. reflexivity. }
    split; [exact Hok|].
    destruct (proj2 (Hmusic (music_page [])) 0 Hok)
      as [_ [system [core [rate [startup [w1 [setup [Hevs [Hanswers _]]]]]]]]].
    exists system, core, rate, startup, setup. split; [exact Hevs | exact Hanswers].
  - assert (Hok : outcome (Part000.main (part_page [])) = Returned 0).
    { apply (Hpart_runs (part_page [])).
      - intros control _. reflexivity.
      - apply all_ok_checked. vm_compute. reflexivity. }
    split; [exact Hok|].
    destruct (proj2 (Hpart (part_page [])) 0 Hok)
      as [_ [system [core [rate [startup [w1 [setup [Hevs [Hanswers _]]]]]]]]].
    exists system, core, rate, startup, setup. split; [exact Hevs | exact Hanswers].
Defined.

(** [main] of music_callbacks.js with every call answered [FMOD.OK]
    returns and starts the timer, and makes neither sample-rate call. *)
Lemma C4_music_main_skips_sample_rate :
  outcome (MusicCallbacks.main (music_page [])) = Returned 0 /\
  filter is_timer (events (MusicCallbacks.main (music_page []))) =
    [ESetInterval fn_updateApplication 20] /\
  filter is_setSoftwareFormat (calls (events (MusicCallbacks.main (music_page [])))) = [] /\
  ~ begins_with_full_startup (events (MusicCallbacks.main (music_page []))).
Proof.
  assert (Hcalls :
    calls (events (MusicCallbacks.main (music_page []))) =
      [Studio_System_Create; getCoreSystem (Handle 1);
       setDSPBufferSize (Handle 2) 2048 2; initialize (Handle 1) 1024 0 0;
       loadBankFile (Handle 1) "/Master.bank" 0;
       loadBankFile (Handle 1) "/Master.strings.bank" 0;
       loadBankFile (Handle 1) "/Music.bank" 0;
       getEvent (Handle 1) "event:/Music/Level 01";
       createInstance (Handle 4);
       setCallback (Handle 5) fn_markerCallback 28672;
       start (Handle 5);
       getParameterDescriptionByName (Handle 4) "Progression";
       setParameterByID (Handle 5) (Some {| data1 := 1; data2 := 2 |}) 0 false])
    by (vm_compute; reflexivity).
  split; [vm_compute; reflexivity | split; [| split]].
  - vm_compute. reflexivity.
  - rewrite Hcalls. reflexivity.
  - intros [system [core [rate [rest Hfull]]]].
    rewrite Hcalls in Hfull. discriminate Hfull.
Qed.

(** The three ticks on the pages their [main]s left. *)
Lemma C5_update_example :
  observe (SimpleEvent.updateApplication (Build_World [] (globals simple_ready))) =
    observe (MusicCallbacks.updateApplication (Build_World [] (globals music_ready))) /\
  observe (Part000.updateApplication (Build_World [] (globals part_ready))) =
    observe (MusicCallbacks.updateApplication (Build_World [] (globals music_ready))).
Proof.
  apply (@C5_update_functions_equivalent integer_numbers scripted [] (globals simple_ready)
           (globals music_ready) (globals part_ready)); vm_compute; reflexivity.
Defined.

(** Sound id 7 has no branch in either script. *)
Lemma C8_soundid_7_example :
  SimpleEvent.playEvent 7 simple_ready = (Returned tt, simple_ready, []) /\
  Part000.playEvent 7 part_ready = (Returned tt, part_ready, []).
Proof.
  destruct (@C8_unhandled_soundid_does_nothing integer_numbers scripted 7)
    as [Hsimple Hpart].
  split.
  - apply Hsimple. cbn. lia.
  - apply Hpart. cbn. lia.
Defined.

(** After a first touch that succeeds, the flag stays set over a tick, a
    touch, a button press and another touch, during which the mixer is not
    called, and five more touches do nothing; a first touch starts with
    [mixerSuspend]; and a touch whose [mixerResume] fails leaves
    [gAudioResumed] false. *)
Lemma C9_resumed_example :
  (Part000.gAudioResumed (globals (final (Part000.resumeAudio part_ready))) = true /\
   touches 5 (final (Part000.resumeAudio part_ready)) =
     (final (Part000.resumeAudio part_ready), []) /\
   Part000.gAudioResumed
     (globals (fst (dispatch Part000.handler
                      [Part000.Tick; Part000.Touch; Part000.Press 0; Part000.Touch]
                      (final (Part000.resumeAudio part_ready))))) = true /\
   filter is_mixerSuspend
     (calls (snd (dispatch Part000.handler
                    [Part000.Tick; Part000.Touch; Part000.Press 0; Part000.Touch]
                    (final (Part000.resumeAudio part_ready))))) = []) /\
  (exists rest,
      calls (events (Part000.resumeAudio part_ready)) = mixerSuspend (Handle 2) :: rest) /\
  Part000.gAudioResumed
    (globals (final (Part000.resumeAudio part_ready_resume_fails_once))) = false.
Proof.
  destruct (@C9_resume_pair_completes_at_most_once integer_numbers scripted
              [Part000.Tick; Part000.Touch; Part000.Press 0; Part000.Touch] part_ready)
    as [_ [Hafter [_ Hagain]]].
  destruct (@C9_resume_pair_completes_at_most_once integer_numbers scripted []
              part_ready_resume_fails_once)
    as [_ [_ [Hfailed _]]].
  split; [|split].
  - destruct (Hafter (final (Part000.resumeAudio part_ready))
                (events (Part000.resumeAudio part_ready)))
      as [Hset [Hnoop [Hstays [_ [Hsuspend _]]]]].
    { vm_compute. reflexivity. }
    repeat apply conj; [exact Hset | apply Hnoop | exact Hstays | exact Hsuspend].
  - apply Hagain; vm_compute; reflexivity.
  - rewrite (Hfailed (Thrown "Error!!! 'error 30'")); vm_compute; reflexivity.
Defined.

(** When the first [mixerResume] fails, the second touch makes both calls
    again: each call of the pair is made twice. *)
Lemma C9_pair_executed_twice :
  calls (snd (touches 2 part_ready_resume_fails_once)) =
    [mixerSuspend (Handle 2); mixerResume (Handle 2);
     mixerSuspend (Handle 2); mixerResume (Handle 2)] /\
  ~ pair_executed_at_most_once (snd (touches 2 part_ready_resume_fails_once)).
Proof.
  assert (Hcalls :
    calls (snd (touches 2 part_ready_resume_fails_once)) =
      [mixerSuspend (Handle 2); mixerResume (Handle 2);
       mixerSuspend (Handle 2); mixerResume (Handle 2)])
    by (vm_compute; reflexivity).
  split; [exact Hcalls|].
  intros [Hsuspend _]. rewrite Hcalls in Hsuspend. cbn in Hsuspend. lia.
Qed.

(** A sound-played callback whose two queries succeed, and a callback of
    a type the script does not test for. *)
Lemma C10_marker_callback_example :
  outcome (MusicCallbacks.markerCallback 8192 (Handle 5) (Handle 9) music_ready) =
    Returned 0 /\
  MusicCallbacks.markerCallback 1 (Handle 5) (Handle 9) music_ready =
    (Returned 0, music_ready, []).
Proof.
  split.
  - apply (proj1 (@C10_marker_callback_returns_ok integer_numbers scripted 8192
                    (Handle 5) (Handle 9) music_ready)).
    apply all_ok_checked. vm_compute. reflexivity.
  - apply (proj2 (@C10_marker_callback_returns_ok integer_numbers scripted 1
                    (Handle 5) (Handle 9) music_ready)); discriminate.
Defined.

(** * Concrete runs *)

(** The engine calls of a successful [main] of simple_event.js. *)
Example simple_main_calls :
  calls (events (SimpleEvent.main (simple_page []))) =
    [Studio_System_Create; getCoreSystem (Handle 1);
     setDSPBufferSize (Handle 2) 2048 2; getDriverInfo (Handle 2) 0;
     setSoftwareFormat (Handle 2) 48000 0 0; initialize (Handle 1) 1024 0 0;
     loadBankFile (Handle 1) "/Master.bank" 0;
     loadBankFile (Handle 1) "/Master.strings.bank" 0;
     loadBankFile (Handle 1) "/SFX.bank" 0;
     getEvent (Handle 1) "event:/Ambience/Country"; createInstance (Handle 4);
     getEvent (Handle 1) "event:/UI/Cancel"; createInstance (Handle 4);
     getEvent (Handle 1) "event:/Weapons/Explosion"; loadSampleData (Handle 4)].
Proof. vm_compute. reflexivity. Qed.

(** The explosion button: create, start, release. *)
Example simple_playEvent_0 :
  calls (events (SimpleEvent.playEvent 0 simple_ready)) =
    [createInstance (Handle 4); start (Handle 5); release (Handle 5)].
Proof. vm_compute. reflexivity. Qed.

(** Pressed before [main] has run, the button finds no event description. *)
Example simple_playEvent_before_main :
  SimpleEvent.playEvent 0 (simple_page []) = (Raised TypeError, simple_page [], []).
Proof. vm_compute. reflexivity. Qed.

(** The text fields after a tick on the scripted host. *)
Example simple_tick_writes :
  writes (events (SimpleEvent.updateApplication simple_ready)) =
    [("#display_out", "Channels Playing = 0 : CPU = dsp 1% stream 2% update 3% total 6%");
     ("#display_out2",
      "Mixer rate = 48000hz : System rate = 48000hz : DSP buffer size = 2 buffers of 2048 samples (85 ms)")].
Proof. vm_compute. reflexivity. Qed.

(** Two presses of the toggle button send 1 and then 0. *)
Example music_toggle_twice :
  calls (snd (dispatch MusicCallbacks.handler
                [MusicCallbacks.Toggle; MusicCallbacks.Toggle] music_ready)) =
    [setParameterByID (Handle 5) (Some {| data1 := 1; data2 := 2 |}) 1 false;
     setParameterByID (Handle 5) (Some {| data1 := 1; data2 := 2 |}) 0 false].
Proof. vm_compute. reflexivity. Qed.

(** The mask [initApplication] registers the callback with has the beat,
    sound-played and sound-stopped bits, and not the marker bit. *)
Example music_callbackmask :
  @MusicCallbacks.callbackmask integer_numbers scripted = 4096 + 8192 + 16384 /\
  Z.land (@MusicCallbacks.callbackmask integer_numbers scripted) 2048 = 0.
Proof. split; reflexivity. Qed.

(** Off iOS the third script listens for clicks on the document. *)
Example part_main_listener :
  filter (fun e => match e with EAddListener _ _ _ => true | _ => false end)
    (events (Part000.main (part_page []))) =
    [EAddListener "document" "click" fn_resumeAudio].
Proof. vm_compute. reflexivity. Qed.

(** A first touch on the third script's page suspends and resumes the mixer. *)
Example part_first_touch :
  calls (events (Part000.resumeAudio part_ready)) =
    [mixerSuspend (Handle 2); mixerResume (Handle 2)].
Proof. vm_compute. reflexivity. Qed.

(** * The further properties at work on the scripted host *)

(** The banks loaded by a setup that returns are the ones mounted. *)
Lemma X1_banks_example :
  bank_files (calls (events (SimpleEvent.initApplication simple_ready))) =
    mounted_paths (snd SimpleEvent.prerun).
Proof.
  destruct (@X1_init_loads_what_prerun_mounted integer_numbers scripted) as [Hsimple _].
  assert (Hpre : fst SimpleEvent.prerun = Returned tt) by (vm_compute; reflexivity).
  apply (proj2 (Hsimple Hpre simple_ready)). vm_compute. reflexivity.
Defined.

(** A second setup on the page [main] left returns again and leaves three
    objects in the globals. *)
Lemma X4_simple_setup_example :
  exists explosion ambience cancel,
    simple_handles (globals (final (SimpleEvent.initApplication simple_ready))) =
      (SimpleEvent.gSystem (globals simple_ready),
       SimpleEvent.gSystemCore (globals simple_ready),
       Some explosion, Some ambience, Some cancel).
Proof.
  assert (Hok : outcome (SimpleEvent.initApplication simple_ready) = Returned tt)
    by (vm_compute; reflexivity).
  destruct (@X4_simple_setup_returned integer_numbers scripted simple_ready Hok)
    as [system [b1 [b2 [b3 [ad [ambience [cd [cancel [explosion [Hsys [_ Hg]]]]]]]]]]].
  exists explosion, ambience, cancel.
  unfold simple_handles. rewrite Hg, <- Hsys. reflexivity.
Defined.

Lemma X5_music_setup_example :
  exists instance pid,
    music_handles (globals (final (MusicCallbacks.initApplication music_ready))) =
      (MusicCallbacks.gSystem (globals music_ready),
       MusicCallbacks.gSystemCore (globals music_ready),
       Some instance, Some pid).
Proof.
  assert (Hok : outcome (MusicCallbacks.initApplication music_ready) = Returned tt)
    by (vm_compute; reflexivity).
  destruct (@X5_music_setup_returned integer_numbers scripted music_ready Hok)
    as [system [b1 [b2 [b3 [description [instance [pd [Hsys [_ Hg]]]]]]]]].
  exists instance, (pd_id pd).
  unfold music_handles. rewrite Hg, <- Hsys. reflexivity.
Defined.

Lemma X6_part_setup_example :
  exists instance,
    part_handles (globals (final (Part000.initApplication part_ready))) =
      (Part000.gSystem (globals part_ready), Part000.gSystemCore (globals part_ready),
       Some instance).
Proof.
  assert (Hok : outcome (Part000.initApplication part_ready) = Returned tt)
    by (vm_compute; reflexivity).
  destruct (@X6_part_setup_returned integer_numbers scripted part_ready Hok)
    as [system [b1 [b2 [description [instance [Hsys [_ Hg]]]]]]].
  exists instance.
  unfold part_handles. rewrite Hg, <- Hsys. reflexivity.
Defined.

(** After start-up, a stop press and a tick, the explosion button still
    finds its description. *)
Lemma X7_press_example :
  outcome (SimpleEvent.playEvent 0
             (fst (dispatch SimpleEvent.handler [SimpleEvent.Press 2; SimpleEvent.Tick]
                     (final (SimpleEvent.main (simple_page [])))))) <>
    Raised TypeError.
Proof.
  apply (proj1 (@X7_presses_after_startup_find_their_objects integer_numbers scripted)
           (simple_page []) 0).
  vm_compute. reflexivity.
Defined.

(** The start and stop buttons on a page whose looping instance is object 5. *)
Lemma X8_buttons_example :
  calls (events (SimpleEvent.playEvent 1
                   (@Build_World integer_numbers scripted _ []
                      (SimpleEvent.Build_Globals None None None (Some (Handle 5)) None)))) =
    [start (Handle 5)] /\
  calls (events (SimpleEvent.playEvent 2
                   (@Build_World integer_numbers scripted _ []
                      (SimpleEvent.Build_Globals None None None (Some (Handle 5)) None)))) =
    [stop (Handle 5) FMOD_STUDIO_STOP_IMMEDIATE].
Proof.
  destruct (@X8_buttons_call_on_stored_objects integer_numbers scripted)
    as [_ [Hlooping _]].
  apply Hlooping. reflexivity.
Defined.

(** A toggle the engine rejects still flips [gProgression]. *)
Lemma X10_rejected_toggle_example :
  MusicCallbacks.gProgression
    (globals (final (MusicCallbacks.toggleProgression
                       (@Build_World integer_numbers scripted _ [30] (globals music_ready))))) = 1 /\
  calls (events (MusicCallbacks.toggleProgression
                   (@Build_World integer_numbers scripted _ [30] (globals music_ready)))) =
    [setParameterByID (Handle 5) (Some {| data1 := 1; data2 := 2 |}) 1 false].
Proof.
  destruct (@X10_toggle_flips_before_calling integer_numbers scripted
              (@Build_World integer_numbers scripted _ [30] (globals music_ready)))
    as [Hflip [Hcall _]].
  split.
  - rewrite Hflip. vm_compute. reflexivity.
  - rewrite (proj1 (Hcall (Handle 5) ltac:(vm_compute; reflexivity))).
    vm_compute. reflexivity.
Defined.

(** Three toggles and two ticks from 0 leave 1. *)
Lemma X11_three_toggles_example :
  MusicCallbacks.gProgression
    (globals (fst (dispatch MusicCallbacks.handler
                     [MusicCallbacks.Toggle; MusicCallbacks.Tick; MusicCallbacks.Toggle;
                      MusicCallbacks.Toggle; MusicCallbacks.Tick] music_ready))) = 1.
Proof.
  rewrite (@X11_progression_counts_toggles integer_numbers scripted).
  - vm_compute. reflexivity.
  - left. vm_compute. reflexivity.
Defined.

(** A tick on the scripted page reaches [update]; the page has both fields. *)
Lemma X13_fields_example :
  @has_element integer_numbers scripted "#display_out" = true /\
  @has_element integer_numbers scripted "#display_out2" = true.
Proof.
  apply (proj1 (@X13_update_needs_both_text_fields integer_numbers scripted) simple_ready).
  vm_compute. discriminate.
Defined.

(** The setup on the scripted page enabled its buttons after nine calls. *)
Lemma X14_enabled_example :
  List.length (calls (events (SimpleEvent.initApplication simple_ready))) = 9%nat.
Proof.
  apply (proj1 (@X14_controls_enabled_only_after_loading integer_numbers scripted)
           simple_ready).
  vm_compute. discriminate.
Defined.

(** A sound-stopped callback whose queries succeed, and a marker callback. *)
Lemma X15_callback_example :
  (exists name len,
      events (MusicCallbacks.markerCallback 16384 (Handle 5) (Handle 9) music_ready) =
        [ECall (getName (Handle 9)) 0 (OStr name);
         ECall (getLength (Handle 9) 1) 0 (ONum len);
         ELog "Sound '%s' (length %.3f) %s"
           [JStr name; JNum (num_div len (num_of_Z 1000)); JStr "Stopped"]]) /\
  MusicCallbacks.markerCallback 2048 (Handle 5) (Handle 9) music_ready =
    (Returned 0, music_ready, [ELog "Named marker '%s'" [JUndefined]]).
Proof.
  destruct (@X15_marker_callback_reports integer_numbers scripted 16384 (Handle 5)
              (Handle 9) music_ready) as [_ [_ [_ Hsound]]].
  destruct (@X15_marker_callback_reports integer_numbers scripted 2048 (Handle 5)
              (Handle 9) music_ready) as [_ [Hmarker _]].
  split.
  - apply Hsound.
    + discriminate.
    + discriminate.
    + right. reflexivity.
    + vm_compute. reflexivity.
  - apply Hmarker. reflexivity.
Defined.
